(** * pkg/ipam/allocator.go: the IPAM coordinator

    A shallow embedding of the allocation coordinator of [pkg/ipam]:
    the ownership ledger, the expiration timers, the dispatch into the
    per-family allocator backends, the dual-stack orchestration and the
    blacklist retry loop.

    Every section of the source that runs with [allocatorMutex] held is one
    atomic state transformer here; operations that take the lock several
    times ([AllocateNext], [ReleaseIPString], ...) are the sequential
    composition of their locked sections.  Structured logging ([logrus]) has
    no effect on the state and is left out. *)

From Stdlib Require Import Ascii String ZArith.
From stdpp Require Import gmap strings list fin_maps pretty.

Local Open Scope string_scope.

(** ** Go standard library *)

Module strings.
(** [strings.Join]: no element gives the empty string, one element is
    returned as it is, otherwise [sep] is written between the elements. *)
Fixpoint Join (elems : list string) (sep : string) : string :=
  match elems with
  | [] => ""
  | [x] => x
  | x :: rest => x +:+ sep +:+ Join rest sep
  end.
End strings.

(** [error] values.  The coordinator never compares errors, it only tests
    them against [nil] and hands them on, so an error is its message. *)
Inductive error : Type := mkError (Error : string).

Module errors.
Definition New (text : string) : error := mkError text.
End errors.

Module fmt.
Definition Errorf (formatted : string) : error := mkError formatted.
End fmt.

(** A Go [(value, error)] pair of a call that follows the convention that
    exactly one of the two is non-nil. *)
Inductive res (X : Type) : Type :=
| Ok (x : X)
| Err (e : error).
Arguments Ok {X} x.
Arguments Err {X} e.

(** [net.IP]: the coordinator uses an address through [ip.String()],
    [ip.To4() != nil] and [net.ParseIP] only. *)
Module net.
Class IPOps (IP : Type) := {
  String : IP → string;
  (** [To4 ip] is [ip.To4() != nil] *)
  To4 : IP → bool;
  (** [ParseIP s] is [None] where Go returns [nil] *)
  ParseIP : string → option IP
}.
End net.

(** ** Types declared outside [allocator.go] *)

(** Modelled from the spec: [types.Metadata], the descriptor of the
    requester, of which the coordinator reads the [Owner] identifier. *)
Record Metadata : Type := { Owner : string }.

(** Modelled from the spec: [AllocationResult], the allocated address and
    the token of the expiration timer; the backend-specific fields, which the
    coordinator never reads, are left out. *)
Record AllocationResult (IP : Type) : Type := mkAllocationResult {
  IP_ : IP;
  ExpirationUUID : string
}.
Arguments mkAllocationResult {IP} _ _.
Arguments IP_ {IP} _.
Arguments ExpirationUUID {IP} _.

(** Modelled from the spec: the family tag with its two values.  The
    source converts it with [string(family)] and has a [default] case for
    other values, so a tag is a string. *)
Definition Family : Type := string.
Definition IPv6 : Family := "ipv6".
Definition IPv4 : Family := "ipv4".

(** Modelled from the spec: the [Allocator] interface every family backend
    implements, with the methods the coordinator calls.  A backend is a value
    [a : A]; a method returns the backend after the call next to its Go
    results.  The first result of [Allocate] is dropped by every caller in
    [allocator.go] and is not modelled. *)
Module Allocator.
Class Ops (IP A : Type) := {
  Allocate : A → IP → Metadata → A * option error;
  AllocateWithoutSyncUpstream : A → IP → Metadata → A * option error;
  Release : A → IP → A * option error;
  AllocateNext : A → Metadata → A * res (AllocationResult IP);
  AllocateNextWithoutSyncUpstream : A → Metadata → A * res (AllocationResult IP);
  Dump : A → gmap string string * string
}.
End Allocator.

(** ** Constants and error definitions *)

Definition metricAllocate : string := "allocate".
Definition metricRelease : string := "release".
Definition familyIPv4 : string := "ipv4".
Definition familyIPv6 : string := "ipv6".

Definition ErrIPv4Disabled : error := errors.New "IPv4 allocation disabled".
Definition ErrIPv6Disabled : error := errors.New "IPv6 allocation disabled".

Definition dquote : string := String "034"%char EmptyString.

Section IPAM.
Context {IP A : Type} `{!net.IPOps IP} `{!Allocator.Ops IP A}.

(** Modelled from the spec: the identifier generator [uuid.NewUUID] of
    [pkg/uuid] is not part of this file.  Section 6 of the specification
    asks it for "a source of unique tokens" that are unique in the process
    lifetime: [NewUUID n] is the token of the [n]-th call, and no two calls
    give the same token. *)
Variable NewUUID : nat → string.

(** Which backend a call went to, and the calls the coordinator makes. *)
Inductive Call : Type :=
| CallAllocate (fam : Family) (sync : bool) (ip : IP) (metadata : Metadata)
| CallAllocateNext (fam : Family) (sync : bool) (metadata : Metadata)
| CallRelease (fam : Family) (ip : IP).

(** The [IPAM] struct, followed by the process-wide state the file
    touches: the counter vector [metrics.IpamEvent], the number of tokens
    handed out by [uuid.NewUUID], the watcher goroutines spawned so far (in
    spawn order, each with its address, token and timeout), and the calls
    made to the two backends (oldest first).  The blacklist is declared
    outside [allocator.go] and used as the membership test
    [ipam.blacklist.Contains(ip)], which is [blacklist ip] here. *)
Record IPAM : Type := mkIPAM {
  IPv4Allocator : option A;
  IPv6Allocator : option A;
  owner : gmap string string;
  expirationTimers : gmap string string;
  blacklist : IP → bool;
  IpamEvent : gmap (string * string) nat;
  uuidsIssued : nat;
  goroutines : list (IP * string * Z);
  backendCalls : list Call
}.

Definition set_IPv4Allocator (a : option A) (s : IPAM) : IPAM :=
  mkIPAM a (IPv6Allocator s) (owner s) (expirationTimers s) (blacklist s)
         (IpamEvent s) (uuidsIssued s) (goroutines s) (backendCalls s).
Definition set_IPv6Allocator (a : option A) (s : IPAM) : IPAM :=
  mkIPAM (IPv4Allocator s) a (owner s) (expirationTimers s) (blacklist s)
         (IpamEvent s) (uuidsIssued s) (goroutines s) (backendCalls s).
Definition set_owner (m : gmap string string) (s : IPAM) : IPAM :=
  mkIPAM (IPv4Allocator s) (IPv6Allocator s) m (expirationTimers s) (blacklist s)
         (IpamEvent s) (uuidsIssued s) (goroutines s) (backendCalls s).
Definition set_expirationTimers (m : gmap string string) (s : IPAM) : IPAM :=
  mkIPAM (IPv4Allocator s) (IPv6Allocator s) (owner s) m (blacklist s)
         (IpamEvent s) (uuidsIssued s) (goroutines s) (backendCalls s).
Definition set_IpamEvent (m : gmap (string * string) nat) (s : IPAM) : IPAM :=
  mkIPAM (IPv4Allocator s) (IPv6Allocator s) (owner s) (expirationTimers s) (blacklist s)
         m (uuidsIssued s) (goroutines s) (backendCalls s).
Definition set_uuidsIssued (n : nat) (s : IPAM) : IPAM :=
  mkIPAM (IPv4Allocator s) (IPv6Allocator s) (owner s) (expirationTimers s) (blacklist s)
         (IpamEvent s) n (goroutines s) (backendCalls s).
Definition set_goroutines (g : list (IP * string * Z)) (s : IPAM) : IPAM :=
  mkIPAM (IPv4Allocator s) (IPv6Allocator s) (owner s) (expirationTimers s) (blacklist s)
         (IpamEvent s) (uuidsIssued s) g (backendCalls s).
Definition set_backendCalls (c : list Call) (s : IPAM) : IPAM :=
  mkIPAM (IPv4Allocator s) (IPv6Allocator s) (owner s) (expirationTimers s) (blacklist s)
         (IpamEvent s) (uuidsIssued s) (goroutines s) c.

(** [metrics.IpamEvent.WithLabelValues(event, family).Inc()] *)
Definition IpamEvent_Inc (event family : string) (s : IPAM) : IPAM :=
  set_IpamEvent
    (<[(event, family) := S (default 0%nat (IpamEvent s !! (event, family)))]> (IpamEvent s)) s.

Definition called (c : Call) (s : IPAM) : IPAM :=
  set_backendCalls (backendCalls s ++ [c]) s.

(** [for ip, o := range ipam.owner] visits the entries in an order Go
    leaves unspecified: [range_owner m] is the order of one such loop, some
    enumeration of the entries of [m]. *)
Variable range_owner : gmap string string → list (string * string).

Definition lookupIPsByOwner (owner_ : string) (s : IPAM) : list IP :=
  omap (λ '(ip, o), if String.eqb o owner_ then net.ParseIP ip else None)
       (range_owner (owner s)).

Definition allocateIP (ip : IP) (needSyncUpstream : bool) (metadata : Metadata)
    (s : IPAM) : option error * IPAM :=
  if blacklist s ip then
    (Some (fmt.Errorf ("IP " +:+ net.String ip +:+ " is blacklisted, owned by "
                        +:+ Owner metadata)), s)
  else if net.To4 ip then
    match IPv4Allocator s with
    | None => (Some ErrIPv4Disabled, s)
    | Some a =>
      let '(a', err) :=
        if needSyncUpstream then Allocator.Allocate a ip metadata
        else Allocator.AllocateWithoutSyncUpstream a ip metadata in
      let s := set_IPv4Allocator (Some a')
                 (called (CallAllocate IPv4 needSyncUpstream ip metadata) s) in
      match err with
      | Some e => (Some e, s)
      | None =>
        (None, IpamEvent_Inc metricAllocate familyIPv4
                 (set_owner (<[net.String ip := Owner metadata]> (owner s)) s))
      end
    end
  else
    match IPv6Allocator s with
    | None => (Some ErrIPv6Disabled, s)
    | Some a =>
      let '(a', err) :=
        if needSyncUpstream then Allocator.Allocate a ip metadata
        else Allocator.AllocateWithoutSyncUpstream a ip metadata in
      let s := set_IPv6Allocator (Some a')
                 (called (CallAllocate IPv6 needSyncUpstream ip metadata) s) in
      match err with
      | Some e => (Some e, s)
      | None =>
        (None, IpamEvent_Inc metricAllocate familyIPv6
                 (set_owner (<[net.String ip := Owner metadata]> (owner s)) s))
      end
    end.

Definition AllocateIP (ip : IP) (metadata : Metadata) (s : IPAM) : option error * IPAM :=
  allocateIP ip true metadata s.

Definition AllocateIPWithoutSyncUpstream (ip : IP) (metadata : Metadata) (s : IPAM)
    : option error * IPAM :=
  allocateIP ip false metadata s.

Definition AllocateIPString (ipAddr : string) (metadata : Metadata) (s : IPAM)
    : option error * IPAM :=
  match net.ParseIP ipAddr with
  | None => (Some (fmt.Errorf ("Invalid IP address: " +:+ ipAddr)), s)
  | Some ip => AllocateIP ip metadata s
  end.

(** The backend behind a family tag, as the [switch] of
    [allocateNextFamily] selects it, and the write-back of its state. *)
Definition set_allocator (family : Family) (a : option A) (s : IPAM) : IPAM :=
  if String.eqb family IPv6 then set_IPv6Allocator a s
  else if String.eqb family IPv4 then set_IPv4Allocator a s
  else s.

(** The [for] loop of [allocateNextFamily] on the selected backend [a].
    [fuel] bounds the number of iterations; [None] says that the loop has
    not returned within that bound. *)
Fixpoint allocateNextFamily_loop (fuel : nat) (family : Family) (a : A)
    (needSyncUpstream : bool) (metadata : Metadata) (s : IPAM)
    : option (res (AllocationResult IP) * IPAM) :=
  match fuel with
  | O => None
  | S fuel =>
    let '(a', r) :=
      if needSyncUpstream then Allocator.AllocateNext a metadata
      else Allocator.AllocateNextWithoutSyncUpstream a metadata in
    let s := set_allocator family (Some a')
               (called (CallAllocateNext family needSyncUpstream metadata) s) in
    match r with
    | Err e => Some (Err e, s)
    | Ok result =>
      if negb (blacklist s (IP_ result)) then
        Some (Ok result,
              IpamEvent_Inc metricAllocate family
                (set_owner (<[net.String (IP_ result) := Owner metadata]> (owner s)) s))
      else
        allocateNextFamily_loop fuel family a' needSyncUpstream metadata
          (set_owner (<[net.String (IP_ result) := Owner metadata +:+ " (blacklisted)"]>
                        (owner s)) s)
    end
  end.

Definition allocateNextFamily (fuel : nat) (family : Family) (needSyncUpstream : bool)
    (metadata : Metadata) (s : IPAM) : option (res (AllocationResult IP) * IPAM) :=
  let allocator :=
    if String.eqb family IPv6 then Ok (IPv6Allocator s)
    else if String.eqb family IPv4 then Ok (IPv4Allocator s)
    else Err (fmt.Errorf ("unknown address " +:+ dquote +:+ family +:+ dquote
                           +:+ " family requested")) in
  match allocator with
  | Err e => Some (Err e, s)
  | Ok None => Some (Err (fmt.Errorf (family +:+ " allocator not available")), s)
  | Ok (Some a) => allocateNextFamily_loop fuel family a needSyncUpstream metadata s
  end.

Definition AllocateNextFamily (fuel : nat) (family : Family) (metadata : Metadata) (s : IPAM)
    : option (res (AllocationResult IP) * IPAM) :=
  allocateNextFamily fuel family true metadata s.

Definition AllocateNextFamilyWithoutSyncUpstream (fuel : nat) (family : Family)
    (metadata : Metadata) (s : IPAM) : option (res (AllocationResult IP) * IPAM) :=
  allocateNextFamily fuel family false metadata s.

Definition releaseIPLocked (ip : IP) (s : IPAM) : option error * IPAM :=
  if net.To4 ip then
    match IPv4Allocator s with
    | None => (Some ErrIPv4Disabled, s)
    | Some a =>
      let '(a', err) := Allocator.Release a ip in
      let s := set_IPv4Allocator (Some a') (called (CallRelease IPv4 ip) s) in
      match err with
      | Some e => (Some e, s)
      | None =>
        (None, IpamEvent_Inc metricRelease familyIPv4
                 (set_expirationTimers (delete (net.String ip) (expirationTimers s))
                    (set_owner (delete (net.String ip) (owner s)) s)))
      end
    end
  else
    match IPv6Allocator s with
    | None => (Some ErrIPv6Disabled, s)
    | Some a =>
      let '(a', err) := Allocator.Release a ip in
      let s := set_IPv6Allocator (Some a') (called (CallRelease IPv6 ip) s) in
      match err with
      | Some e => (Some e, s)
      | None =>
        (None, IpamEvent_Inc metricRelease familyIPv6
                 (set_expirationTimers (delete (net.String ip) (expirationTimers s))
                    (set_owner (delete (net.String ip) (owner s)) s)))
      end
    end.

Definition ReleaseIP (ip : IP) (s : IPAM) : option error * IPAM :=
  releaseIPLocked ip s.

(** The two dual-stack results and the error of [AllocateNext]. *)
Definition results : Type :=
  option (AllocationResult IP) * option (AllocationResult IP) * option error.

Definition AllocateNext (fuel : nat) (family : string) (metadata : Metadata) (s : IPAM)
    : option (results * IPAM) :=
  let ipv6 :=
    if (String.eqb family "ipv6" || String.eqb family "") && bool_decide (IPv6Allocator s ≠ None)
    then
      match AllocateNextFamily fuel IPv6 metadata s with
      | None => None
      | Some (Ok r, s) => Some (Some r, None, s)
      | Some (Err e, s) => Some (None, Some e, s)
      end
    else Some (None, None, s) in
  match ipv6 with
  | None => None
  | Some (ipv6Result, Some err, s) => Some ((None, ipv6Result, Some err), s)
  | Some (ipv6Result, None, s) =>
    if (String.eqb family "ipv4" || String.eqb family "") && bool_decide (IPv4Allocator s ≠ None)
    then
      match AllocateNextFamily fuel IPv4 metadata s with
      | None => None
      | Some (Ok r, s) => Some ((Some r, ipv6Result, None), s)
      | Some (Err e, s) =>
        let s := match ipv6Result with
                 | Some r6 => snd (ReleaseIP (IP_ r6) s)
                 | None => s
                 end in
        Some ((None, ipv6Result, Some e), s)
      end
    else Some ((None, ipv6Result, None), s)
  end.

(** The body of the goroutine started by [StartExpirationTimer], from the
    point where it holds the lock after its [time.Sleep]. *)
Definition expirationWatcher (ip : IP) (allocationUUID : string) (s : IPAM) : IPAM :=
  let ipString := net.String ip in
  match expirationTimers s !! ipString with
  | Some currentUUID =>
    if String.eqb currentUUID allocationUUID then snd (releaseIPLocked ip s) else s
  | None => s
  end.

Definition StartExpirationTimer (ip : IP) (timeout : Z) (s : IPAM)
    : string * option error * IPAM :=
  let ipString := net.String ip in
  match expirationTimers s !! ipString with
  | Some _ => ("", Some (fmt.Errorf "expiration timer already registered"), s)
  | None =>
    let allocationUUID := NewUUID (uuidsIssued s) in
    let s := set_uuidsIssued (S (uuidsIssued s)) s in
    let s := set_expirationTimers (<[ipString := allocationUUID]> (expirationTimers s)) s in
    let s := set_goroutines (goroutines s ++ [(ip, allocationUUID, timeout)]) s in
    (allocationUUID, None, s)
  end.

Definition StopExpirationTimer (ip : IP) (allocationUUID : string) (s : IPAM)
    : option error * IPAM :=
  let ipString := net.String ip in
  match expirationTimers s !! ipString with
  | None => (Some (fmt.Errorf "no expiration timer registered"), s)
  | Some currentUUID =>
    if negb (String.eqb currentUUID allocationUUID) then
      (Some (fmt.Errorf "UUID mismatch, not stopping expiration timer"), s)
    else (None, set_expirationTimers (delete ipString (expirationTimers s)) s)
  end.

Definition set_ExpirationUUID (u : string) (r : AllocationResult IP) : AllocationResult IP :=
  mkAllocationResult (IP_ r) u.

(** The rollback inside the loop of [AllocateNextWithExpiration]. *)
Definition releaseResults (ipv4Result ipv6Result : option (AllocationResult IP)) (s : IPAM)
    : IPAM :=
  let s := match ipv4Result with
           | Some r4 => snd (ReleaseIP (IP_ r4) s)
           | None => s
           end in
  match ipv6Result with
  | Some r6 => snd (ReleaseIP (IP_ r6) s)
  | None => s
  end.

(** [AllocateNextWithExpiration]; the loop over the two-element slice
    [{ipv4Result, ipv6Result}] is written out, first element first.  The
    results are pointers: the assignment to [result.ExpirationUUID] is seen
    through [ipv4Result] and [ipv6Result]. *)
Definition AllocateNextWithExpiration (fuel : nat) (family : string) (timeout : Z)
    (metadata : Metadata) (s : IPAM) : option (results * IPAM) :=
  match AllocateNext fuel family metadata s with
  | None => None
  | Some ((_, _, Some err), s) => Some ((None, None, Some err), s)
  | Some ((ipv4Result, ipv6Result, None), s) =>
    if bool_decide (timeout ≠ 0%Z) then
      let first :=
        match ipv4Result with
        | Some r4 =>
          let '(u, err, s) := StartExpirationTimer (IP_ r4) timeout s in
          (Some (set_ExpirationUUID u r4), err, s)
        | None => (None, None, s)
        end in
      let '(ipv4Result, err, s) := first in
      match err with
      | Some e => Some ((ipv4Result, ipv6Result, Some e), releaseResults ipv4Result ipv6Result s)
      | None =>
        let second :=
          match ipv6Result with
          | Some r6 =>
            let '(u, err, s) := StartExpirationTimer (IP_ r6) timeout s in
            (Some (set_ExpirationUUID u r6), err, s)
          | None => (None, None, s)
          end in
        let '(ipv6Result, err, s) := second in
        match err with
        | Some e =>
          Some ((ipv4Result, ipv6Result, Some e), releaseResults ipv4Result ipv6Result s)
        | None => Some ((ipv4Result, ipv6Result, None), s)
        end
      end
    else Some ((ipv4Result, ipv6Result, None), s)
  end.

(** The loop of [ReleaseIPString]: every address is released in turn and
    [err] keeps the error of the last release that failed. *)
Fixpoint ReleaseIPString_loop (ips : list IP) (err : option error) (s : IPAM)
    : option error * IPAM :=
  match ips with
  | [] => (err, s)
  | parsedIP :: ips =>
    let '(err2, s) := ReleaseIP parsedIP s in
    ReleaseIPString_loop ips (match err2 with Some e => Some e | None => err end) s
  end.

Definition ReleaseIPString (releaseArg : string) (s : IPAM) : option error * IPAM :=
  match net.ParseIP releaseArg with
  | None =>
    let ips := lookupIPsByOwner releaseArg s in
    if Nat.eqb (length ips) 0 then
      (Some (fmt.Errorf ("Invalid IP address or owner name: " +:+ releaseArg)), s)
    else ReleaseIPString_loop ips None s
  | Some ip => ReleaseIPString_loop [ip] None s
  end.

(** [for ip := range alloc { owner, _ := ipam.owner[ip]; alloc[ip] = owner }]:
    every key of the backend's map gets the ledger's owner, the empty
    string where the ledger has none. *)
Definition annotate (alloc : gmap string string) (s : IPAM) : gmap string string :=
  map_imap (λ ip _, Some (default "" (owner s !! ip))) alloc.

(** [Dump]; a [nil] map is [None]. *)
Definition Dump (s : IPAM)
    : option (gmap string string) * option (gmap string string) * string :=
  let '(allocv4, st4) :=
    match IPv4Allocator s with
    | Some a =>
      let '(allocv4, st4) := Allocator.Dump a in
      (Some (annotate allocv4 s), "IPv4: " +:+ st4)
    | None => (None, "")
    end in
  let '(allocv6, st6) :=
    match IPv6Allocator s with
    | Some a =>
      let '(allocv6, st6) := Allocator.Dump a in
      (Some (annotate allocv6 s), "IPv6: " +:+ st6)
    | None => (None, "")
    end in
  let status := strings.Join [st4; st6] ", " in
  let status := if String.eqb status "" then "Not running" else status in
  (allocv4, allocv6, status).

(** ** Notions used to state the properties *)

(** One call of the backend's next-address method, by flag. *)
Definition backendNext (needSyncUpstream : bool) (metadata : Metadata) (a : A)
    : A * res (AllocationResult IP) :=
  if needSyncUpstream then Allocator.AllocateNext a metadata
  else Allocator.AllocateNextWithoutSyncUpstream a metadata.

(** [blacklist_retries bl next a skipped a' out]: asked again and again
    from [a], the backend first returns the results [skipped], each one
    blacklisted, and then answers [out], either an error or a result that is
    not blacklisted, which leaves it as [a']. *)
Inductive blacklist_retries (bl : IP → bool) (next : A → A * res (AllocationResult IP))
    : A → list (AllocationResult IP) → A → res (AllocationResult IP) → Prop :=
| retries_done a a' out :
    next a = (a', out) →
    (∀ r, out = Ok r → bl (IP_ r) = false) →
    blacklist_retries bl next a [] a' out
| retries_skip a a1 r skipped a' out :
    next a = (a1, Ok r) →
    bl (IP_ r) = true →
    blacklist_retries bl next a1 skipped a' out →
    blacklist_retries bl next a (r :: skipped) a' out.

(** The ledger after the results [skipped] were recorded under the
    blacklist-marked owner. *)
Definition burned (owner_ : string) (skipped : list (AllocationResult IP))
    (m : gmap string string) : gmap string string :=
  foldl (λ m r, <[net.String (IP_ r) := owner_ +:+ " (blacklisted)"]> m) m skipped.

(** Every address of [ips] released in turn, each on the state the
    release before it left, with the result of every single release. *)
Fixpoint release_all (ips : list IP) (s : IPAM) : list (option error) * IPAM :=
  match ips with
  | [] => ([], s)
  | ip :: ips =>
    let '(e, s) := ReleaseIP ip s in
    let '(es, s) := release_all ips s in
    (e :: es, s)
  end.

(** The failure that came last among the results of a run of releases,
    [None] when no release failed. *)
Definition last_failure (errs : list (option error)) : option error :=
  last (omap id errs).

(** The ledger keys owned by [owner_] that parse as an address. *)
Definition owned_addresses (owner_ : string) (m : gmap string string) : list IP :=
  omap (λ '(ip, o), if String.eqb o owner_ then net.ParseIP ip else None) (map_to_list m).

(** The addresses of the two results of a dual-stack call, the IPv4 one
    first. *)
Definition allocated (ipv4Result ipv6Result : option (AllocationResult IP)) : list IP :=
  (option_list (IP_ <$> ipv4Result) ++ option_list (IP_ <$> ipv6Result))%list.

(** ** The coordinator as a transition system *)

(** One step of the coordinator: one section of the source that runs with
    the lock held, or one firing of a watcher that was spawned.  The
    operations that take the lock several times are sequences of steps. *)
Inductive step : IPAM → IPAM → Prop :=
| step_allocateIP ip needSyncUpstream metadata s :
    step s (allocateIP ip needSyncUpstream metadata s).2
| step_allocateNextFamily fuel family needSyncUpstream metadata s out s' :
    allocateNextFamily fuel family needSyncUpstream metadata s = Some (out, s') →
    step s s'
| step_ReleaseIP ip s :
    step s (ReleaseIP ip s).2
| step_StartExpirationTimer ip timeout s :
    step s (StartExpirationTimer ip timeout s).2
| step_StopExpirationTimer ip allocationUUID s :
    step s (StopExpirationTimer ip allocationUUID s).2
| step_expirationWatcher ip allocationUUID timeout s :
    (ip, allocationUUID, timeout) ∈ goroutines s →
    step s (expirationWatcher ip allocationUUID s).

(** A coordinator on which no timer was registered yet. *)
Definition no_timers (s : IPAM) : Prop :=
  expirationTimers s = ∅ ∧ goroutines s = [].

(** The tokens of the watchers spawned so far, in spawn order. *)
Definition watcher_tokens (s : IPAM) : list string :=
  (λ w : IP * string * Z, w.1.2) <$> goroutines s.

(** The timer table and the watchers fit together: every token in the
    table and every token of a watcher came from the generator, no token is
    registered for two addresses or carried by two watchers, and every
    timer entry has the watcher that was spawned with it. *)
Definition timers_wf (s : IPAM) : Prop :=
  (∀ k u, expirationTimers s !! k = Some u →
     ∃ n, (n < uuidsIssued s)%nat ∧ u = NewUUID n)
  ∧ (∀ u, u ∈ watcher_tokens s → ∃ n, (n < uuidsIssued s)%nat ∧ u = NewUUID n)
  ∧ (∀ k1 k2 u, expirationTimers s !! k1 = Some u →
       expirationTimers s !! k2 = Some u → k1 = k2)
  ∧ NoDup (watcher_tokens s)
  ∧ (∀ k u, expirationTimers s !! k = Some u →
       ∃ ip timeout, net.String ip = k ∧ (ip, u, timeout) ∈ goroutines s).

End IPAM.

(** ** A small concrete backend

    Addresses in their textual form and a pool allocator that hands out
    the addresses of a list in order.  The examples and the concrete runs
    below execute the coordinator on it. *)

Module Pool.

Fixpoint has_colon (s : string) : bool :=
  match s with
  | EmptyString => false
  | String c s => Ascii.eqb c ":"%char || has_colon s
  end.

Definition address_char (c : ascii) : bool :=
  let n := nat_of_ascii c in
  (Nat.leb 48 n && Nat.leb n 58)        (* 0-9 and the colon *)
  || (Nat.leb 97 n && Nat.leb n 102)    (* a-f *)
  || Nat.eqb n 46.                      (* the dot *)

Fixpoint address_chars (s : string) : bool :=
  match s with
  | EmptyString => true
  | String c s => address_char c && address_chars s
  end.

(** An address is its canonical text: [String] gives the text back, an
    address without a colon is an IPv4 address, and [ParseIP] accepts the
    non-empty texts over digits, [a]-[f], dots and colons. *)
#[global] Instance ip_ops : net.IPOps string := {|
  net.String ip := ip;
  net.To4 ip := negb (has_colon ip);
  net.ParseIP s :=
    if address_chars s && negb (String.eqb s "") then Some s else None
|}.

(** The pool: the addresses still free, in the order [AllocateNext]
    hands them out, the addresses in use, and whether the upstream the
    pool releases to is reachable. *)
Record t : Type := mk {
  free : list string;
  inUse : list string;
  upstreamDown : bool
}.

Definition remove (ip : string) (l : list string) : list string :=
  filter (λ x, x ≠ ip) l.

Definition allocate (p : t) (ip : string) (_ : Metadata) : t * option error :=
  if bool_decide (ip ∈ inUse p) then (p, Some (errors.New "provided IP is already allocated"))
  else (mk (remove ip (free p)) (ip :: inUse p) (upstreamDown p), None).

Definition allocateNext (p : t) (_ : Metadata) : t * res (AllocationResult string) :=
  match free p with
  | [] => (p, Err (errors.New "No more IPs available"))
  | ip :: rest => (mk rest (ip :: inUse p) (upstreamDown p), Ok (mkAllocationResult ip ""))
  end.

Definition release (p : t) (ip : string) : t * option error :=
  if upstreamDown p then (p, Some (errors.New "upstream unavailable"))
  else if bool_decide (ip ∈ inUse p) then
    (mk (free p ++ [ip]) (remove ip (inUse p)) (upstreamDown p), None)
  else (p, Some (errors.New "IP is not allocated")).

Definition dump (p : t) : gmap string string * string :=
  (list_to_map ((λ ip, (ip, "")) <$> inUse p), pretty (length (inUse p)) +:+ " in use").

#[global] Instance allocator : Allocator.Ops string t := {|
  Allocator.Allocate := allocate;
  Allocator.AllocateWithoutSyncUpstream := allocate;
  Allocator.Release := release;
  Allocator.AllocateNext := allocateNext;
  Allocator.AllocateNextWithoutSyncUpstream := allocateNext;
  Allocator.Dump := dump
|}.

(** Tokens: the decimal count of the call that produced them. *)
Definition NewUUID (n : nat) : string := "uuid-" +:+ pretty n.

(** One admissible order of a [range] over the ledger. *)
Definition range_owner (m : gmap string string) : list (string * string) :=
  map_to_list m.

(** A coordinator over two pools, nothing allocated yet. *)
Definition ipam (v4 v6 : option t) (blacklisted : list string) : @IPAM string t :=
  mkIPAM v4 v6 ∅ ∅ (λ ip, bool_decide (ip ∈ blacklisted)) ∅ 0 [] [].

Definition pod_a : Metadata := {| Owner := "pod-a" |}.

(** Two free IPv4 addresses of which the first is blacklisted. *)
Definition blacklist_scenario : @IPAM string t :=
  ipam (Some (mk ["10.0.0.5"; "10.0.0.9"] [] false)) None ["10.0.0.5"].

(** Dual stack, the IPv4 pool drained; [down] says whether the IPv6 pool
    can reach its upstream to release. *)
Definition drained_v4 (down : bool) : @IPAM string t :=
  ipam (Some (mk [] [] false)) (Some (mk ["f00d::1"] [] down)) [].

(** One free IPv4 address for which a timer was registered before the
    address is allocated. *)
Definition timer_ahead (down : bool) : @IPAM string t :=
  (StartExpirationTimer NewUUID "10.0.0.1" 5
     (ipam (Some (mk ["10.0.0.1"] [] down)) None [])).2.

(** [pod-a] holds two ledger entries, of which the backend knows only
    the first. *)
Definition two_owned : @IPAM string t :=
  mkIPAM (Some (mk [] ["10.0.0.1"] false)) None
         (<["10.0.0.1" := "pod-a"]> (<["10.0.0.2" := "pod-a"]> ∅)) ∅
         (λ _, false) ∅ 0 [] [].

(** An address is allocated with a timer, released, and allocated again
    with a new timer. *)
Definition reallocated : @IPAM string t :=
  let s := ipam (Some (mk ["10.0.0.1"] [] false)) None [] in
  let s := (AllocateIP "10.0.0.1" pod_a s).2 in
  let s := (StartExpirationTimer NewUUID "10.0.0.1" 5 s).2 in
  let s := (ReleaseIP "10.0.0.1" s).2 in
  let s := (AllocateIP "10.0.0.1" {| Owner := "pod-b" |} s).2 in
  (StartExpirationTimer NewUUID "10.0.0.1" 5 s).2.

(** [timer_ahead false] after its free address was allocated for
    [pod-a]. *)
Definition timer_ahead_allocated : @IPAM string t :=
  match AllocateNext 1 "ipv4" pod_a (timer_ahead false) with
  | Some (_, s) => s
  | None => timer_ahead false
  end.

(** One free IPv4 address, nothing allocated, no timer. *)
Definition single : @IPAM string t :=
  ipam (Some (mk ["10.0.0.1"] [] false)) None [].

(** The states on the way from [single] to [reallocated]. *)
Definition race_allocated : @IPAM string t := (AllocateIP "10.0.0.1" pod_a single).2.
Definition race_timed : @IPAM string t :=
  (StartExpirationTimer NewUUID "10.0.0.1" 5 race_allocated).2.
Definition race_released : @IPAM string t := (ReleaseIP "10.0.0.1" race_timed).2.
Definition race_allocated_again : @IPAM string t :=
  (AllocateIP "10.0.0.1" {| Owner := "pod-b" |} race_released).2.

(** [pod-a] holds two addresses, both in use at the backend. *)
Definition two_allocated : @IPAM string t :=
  mkIPAM (Some (mk [] ["10.0.0.1"; "10.0.0.2"] false)) None
         (<["10.0.0.1" := "pod-a"]> (<["10.0.0.2" := "pod-a"]> ∅)) ∅
         (λ _, false) ∅ 0 [] [].


End Pool.

(** * Properties of the coordinator *)

Section Properties.
Context {IP A : Type} `{!net.IPOps IP} `{!Allocator.Ops IP A}.
Variable NewUUID : nat → string.
Variable range_owner : gmap string string → list (string * string).

Implicit Types (s : @IPAM IP A) (ip : IP) (metadata : Metadata).

(** *** Frame lemmas for [releaseIPLocked] *)

Lemma releaseIPLocked_frame ip s :
  let s' := (releaseIPLocked ip s).2 in
  blacklist s' = blacklist s ∧ uuidsIssued s' = uuidsIssued s
  ∧ goroutines s' = goroutines s.
Proof.
  unfold releaseIPLocked.
  destruct (net.To4 ip);
    [destruct (IPv4Allocator s) as [a|] | destruct (IPv6Allocator s) as [a|]];
    try done;
    destruct (Allocator.Release a ip) as [a' [e|]]; done.
Qed.

(** A release that succeeds deletes the ledger and timer entries; one that
    fails keeps both tables. *)
Lemma releaseIPLocked_tables ip s :
  match releaseIPLocked ip s with
  | (None, s') =>
    owner s' = delete (net.String ip) (owner s)
    ∧ expirationTimers s' = delete (net.String ip) (expirationTimers s)
  | (Some _, s') =>
    owner s' = owner s ∧ expirationTimers s' = expirationTimers s
  end.
Proof.
  unfold releaseIPLocked.
  destruct (net.To4 ip);
    [destruct (IPv4Allocator s) as [a|] | destruct (IPv6Allocator s) as [a|]];
    try done;
    destruct (Allocator.Release a ip) as [a' [e|]]; done.
Qed.

(** C1. The watcher spawned for address [ip] with token [allocationUUID]
    releases the address only if the timer table still maps the address to
    that very token: when there is no timer entry for the address, or the
    entry carries another token, firing the watcher releases nothing and
    leaves the whole state (ledger, timer table, backends) as it was. *)
Theorem expirationWatcher_guard s ip (allocationUUID : string) :
  expirationTimers s !! net.String ip ≠ Some allocationUUID →
  expirationWatcher ip allocationUUID s = s.
Proof.
  intros Hne. unfold expirationWatcher.
  destruct (expirationTimers s !! net.String ip) as [currentUUID|] eqn:Hcur; [|done].
  destruct (String.eqb_spec currentUUID allocationUUID) as [->|]; [|done].
  by destruct Hne.
Qed.

(** When the token does match, the watcher does release the address. *)
Lemma expirationWatcher_fires s ip (allocationUUID : string) :
  expirationTimers s !! net.String ip = Some allocationUUID →
  expirationWatcher ip allocationUUID s = (releaseIPLocked ip s).2.
Proof.
  intros Hcur. unfold expirationWatcher. rewrite Hcur.
  by rewrite String.eqb_refl.
Qed.

(** The watcher that [StartExpirationTimer] spawns carries the token it
    returns. *)
Lemma StartExpirationTimer_spawns s ip timeout u s' :
  StartExpirationTimer NewUUID ip timeout s = (u, None, s') →
  goroutines s' = (goroutines s ++ [(ip, u, timeout)])%list
  ∧ expirationTimers s' !! net.String ip = Some u.
Proof.
  unfold StartExpirationTimer.
  destruct (expirationTimers s !! net.String ip); [done|].
  intros [= <- <-]. cbn. by rewrite lookup_insert_eq.
Qed.

(** C5. Allocating a blacklisted address fails with the blacklist error
    whatever the family of the address and whether or not the allocator of
    that family is configured (the error is neither of the two
    family-disabled errors); no backend is called and the ledger, like the
    rest of the state, is unchanged. *)
Theorem allocateIP_blacklisted s ip (needSyncUpstream : bool) metadata :
  blacklist s ip = true →
  allocateIP ip needSyncUpstream metadata s =
    (Some (fmt.Errorf ("IP " +:+ net.String ip +:+ " is blacklisted, owned by "
                        +:+ Owner metadata)), s)
  ∧ fmt.Errorf ("IP " +:+ net.String ip +:+ " is blacklisted, owned by "
                 +:+ Owner metadata) ≠ ErrIPv4Disabled
  ∧ fmt.Errorf ("IP " +:+ net.String ip +:+ " is blacklisted, owned by "
                 +:+ Owner metadata) ≠ ErrIPv6Disabled.
Proof.
  intros Hbl. unfold allocateIP. rewrite Hbl.
  split; [done|]. split; intros [=].
Qed.

(** C6. [ReleaseIP] either succeeds at the backend of the address's
    family, and then the ledger entry and the timer entry of the address
    are deleted, or it returns an error (the family-disabled error when
    no allocator is configured for the family, the backend's error when
    the backend release fails) and then the ledger and the timer table are
    what they were before the call. *)
Theorem ReleaseIP_atomic s ip :
  match (if net.To4 ip then IPv4Allocator s else IPv6Allocator s) with
  | None =>
    ReleaseIP ip s =
      (Some (if net.To4 ip then ErrIPv4Disabled else ErrIPv6Disabled), s)
  | Some a =>
    match (Allocator.Release a ip).2 with
    | None =>
      ∃ s', ReleaseIP ip s = (None, s')
            ∧ owner s' = delete (net.String ip) (owner s)
            ∧ expirationTimers s' = delete (net.String ip) (expirationTimers s)
    | Some e =>
      ∃ s', ReleaseIP ip s = (Some e, s')
            ∧ owner s' = owner s
            ∧ expirationTimers s' = expirationTimers s
    end
  end.
Proof.
  unfold ReleaseIP, releaseIPLocked.
  destruct (net.To4 ip);
    [destruct (IPv4Allocator s) as [a|] | destruct (IPv6Allocator s) as [a|]];
    try done;
    destruct (Allocator.Release a ip) as [a' [e|]]; cbn; eauto.
Qed.

(** C10. With no timer entry for the address, [StartExpirationTimer]
    succeeds whatever the ledger and the backends are: it returns the next
    token of the generator, which differs from every token handed out
    before, records it in the timer table and spawns the watcher; the
    ledger, the two allocators and the list of backend calls are the same
    after the call as before. *)
Theorem StartExpirationTimer_unallocated s ip (timeout : Z) :
  Inj (=) (=) NewUUID →
  expirationTimers s !! net.String ip = None →
  StartExpirationTimer NewUUID ip timeout s =
    (NewUUID (uuidsIssued s), None,
     mkIPAM (IPv4Allocator s) (IPv6Allocator s) (owner s)
            (<[net.String ip := NewUUID (uuidsIssued s)]> (expirationTimers s))
            (blacklist s) (IpamEvent s) (S (uuidsIssued s))
            (goroutines s ++ [(ip, NewUUID (uuidsIssued s), timeout)])
            (backendCalls s))
  ∧ ∀ n, (n < uuidsIssued s)%nat → NewUUID n ≠ NewUUID (uuidsIssued s).
Proof.
  intros Hinj Hnone. unfold StartExpirationTimer. rewrite Hnone.
  split; [done|].
  intros n Hn Heq. apply Hinj in Heq. lia.
Qed.

(** The other half of the precondition: a registered timer is the one
    thing that makes [StartExpirationTimer] fail. *)
Lemma StartExpirationTimer_registered s ip (timeout : Z) :
  is_Some (expirationTimers s !! net.String ip) →
  StartExpirationTimer NewUUID ip timeout s =
    ("", Some (fmt.Errorf "expiration timer already registered"), s).
Proof. intros [u Hu]. unfold StartExpirationTimer. by rewrite Hu. Qed.

(** C3, the code at the unconfigured coordinator: with neither allocator
    configured [strings.Join] still writes the separator between the two
    empty family strings, so the status is the separator and not
    the not-running text. *)
Theorem Dump_unconfigured_status
    (owner_ timers : gmap string string) (bl : IP → bool)
    (events : gmap (string * string) nat) (n : nat)
    (watchers : list (IP * string * Z)) (calls : list (@Call IP)) :
  Dump (@mkIPAM IP A None None owner_ timers bl events n watchers calls) = (None, None, ", ").
Proof. reflexivity. Qed.

(** X8. Whatever is configured, the status that [Dump] returns is never
    the not-running text. *)
Lemma Dump_status_never_not_running s : (Dump s).2 ≠ "Not running".
Proof.
  unfold Dump.
  destruct (IPv4Allocator s) as [a4|]; [destruct (Allocator.Dump a4) as [m4 st4]|];
    (destruct (IPv6Allocator s) as [a6|]; [destruct (Allocator.Dump a6) as [m6 st6]|]);
    cbn; done.
Qed.

(** *** The retry loop *)

Lemma set_allocator_frame (family : Family) (a : option A) s :
  let s' := set_allocator family a s in
  owner s' = owner s ∧ expirationTimers s' = expirationTimers s
  ∧ blacklist s' = blacklist s ∧ IpamEvent s' = IpamEvent s
  ∧ uuidsIssued s' = uuidsIssued s ∧ goroutines s' = goroutines s
  ∧ backendCalls s' = backendCalls s.
Proof.
  unfold set_allocator.
  destruct (String.eqb family IPv6); [done|]. by destruct (String.eqb family IPv4).
Qed.

(** What a run of the loop leaves alone, and the calls it adds: at least
    one, all of them next-address calls to the backend of [family]. *)
Lemma allocateNextFamily_loop_frame (family : Family) (sync : bool) metadata fuel :
  ∀ (a : A) s out s',
    allocateNextFamily_loop fuel family a sync metadata s = Some (out, s') →
    blacklist s' = blacklist s
    ∧ expirationTimers s' = expirationTimers s
    ∧ uuidsIssued s' = uuidsIssued s
    ∧ goroutines s' = goroutines s
    ∧ (family = IPv6 → IPv4Allocator s' = IPv4Allocator s ∧ is_Some (IPv6Allocator s'))
    ∧ (family = IPv4 → IPv6Allocator s' = IPv6Allocator s ∧ is_Some (IPv4Allocator s'))
    ∧ ∃ n, backendCalls s' =
             (backendCalls s ++ replicate (S n) (CallAllocateNext family sync metadata))%list.
Proof.
  induction fuel as [|fuel IH]; intros a s out s'; [done|].
  cbn [allocateNextFamily_loop].
  set (r := if sync then _ else _). destruct r as [a1 [result|e]].
  - set (s1 := set_allocator family (Some a1) _).
    assert (Hs1 : blacklist s1 = blacklist s ∧ expirationTimers s1 = expirationTimers s
                  ∧ uuidsIssued s1 = uuidsIssued s ∧ goroutines s1 = goroutines s
                  ∧ (family = IPv6 →
                     IPv4Allocator s1 = IPv4Allocator s ∧ is_Some (IPv6Allocator s1))
                  ∧ (family = IPv4 →
                     IPv6Allocator s1 = IPv6Allocator s ∧ is_Some (IPv4Allocator s1))
                  ∧ backendCalls s1 =
                      (backendCalls s ++ [CallAllocateNext family sync metadata])%list).
    { subst s1. unfold set_allocator.
      destruct (String.eqb_spec family IPv6) as [->|?];
        [|destruct (String.eqb_spec family IPv4) as [->|?]];
        cbn; repeat split; try done; eauto. }
    destruct Hs1 as (Hb & Ht & Hu & Hg & H6 & H4 & Hc).
    destruct (blacklist s1 (IP_ result)); cbn [negb].
    + intros Hloop. apply IH in Hloop as (Hb' & Ht' & Hu' & Hg' & H6' & H4' & n & Hc').
      cbn in *. split_and!; try congruence.
      * intros Hf. destruct (H6 Hf), (H6' Hf). split; [congruence|done].
      * intros Hf. destruct (H4 Hf), (H4' Hf). split; [congruence|done].
      * exists (S n). rewrite Hc', Hc, <-(assoc_L (++)). done.
    + intros [= <- <-]. cbn. split_and!; try done. by exists 0%nat.
  - intros [= <- <-]. unfold set_allocator.
    destruct (String.eqb_spec family IPv6) as [->|?];
      [|destruct (String.eqb_spec family IPv4) as [->|?]];
      cbn; repeat split; try done; eauto; by exists 0%nat.
Qed.

Lemma allocateNextFamily_frame (family : Family) (sync : bool) metadata fuel s out s' :
  allocateNextFamily fuel family sync metadata s = Some (out, s') →
  blacklist s' = blacklist s
  ∧ expirationTimers s' = expirationTimers s
  ∧ uuidsIssued s' = uuidsIssued s
  ∧ goroutines s' = goroutines s
  ∧ (family = IPv6 → IPv4Allocator s' = IPv4Allocator s
                      ∧ (IPv6Allocator s = None ↔ IPv6Allocator s' = None))
  ∧ (family = IPv4 → IPv6Allocator s' = IPv6Allocator s
                      ∧ (IPv4Allocator s = None ↔ IPv4Allocator s' = None))
  ∧ ∃ n, backendCalls s' =
           (backendCalls s ++ replicate n (CallAllocateNext family sync metadata))%list
         ∧ (0 < n → family = IPv6 ∧ IPv6Allocator s ≠ None
                     ∨ family = IPv4 ∧ IPv4Allocator s ≠ None)%nat
         ∧ (n = 0%nat → ∃ e, out = Err e).
Proof.
  unfold allocateNextFamily.
  assert (Hskip : ∀ e : error, Some (@Err (AllocationResult IP) e, s) = Some (out, s') →
    blacklist s' = blacklist s ∧ expirationTimers s' = expirationTimers s
    ∧ uuidsIssued s' = uuidsIssued s ∧ goroutines s' = goroutines s
    ∧ (family = IPv6 → IPv4Allocator s' = IPv4Allocator s
                        ∧ (IPv6Allocator s = None ↔ IPv6Allocator s' = None))
    ∧ (family = IPv4 → IPv6Allocator s' = IPv6Allocator s
                        ∧ (IPv4Allocator s = None ↔ IPv4Allocator s' = None))
    ∧ ∃ n, backendCalls s' =
             (backendCalls s ++ replicate n (CallAllocateNext family sync metadata))%list
           ∧ (0 < n → family = IPv6 ∧ IPv6Allocator s ≠ None
                       ∨ family = IPv4 ∧ IPv4Allocator s ≠ None)%nat
           ∧ (n = 0%nat → ∃ e, out = Err e)).
  { intros e [= <- <-]. repeat split; try done.
    exists 0%nat. rewrite app_nil_r. repeat split; [lia|eauto]. }
  destruct (String.eqb_spec family IPv6) as [->|Hn6].
  - destruct (IPv6Allocator s) as [a|] eqn:Ha; [|apply Hskip].
    intros Hloop. apply allocateNextFamily_loop_frame in Hloop
      as (? & ? & ? & ? & H6 & _ & n & Hc).
    destruct (H6 eq_refl) as [? [a' Ha']].
    repeat split; try done; try (rewrite Ha' || rewrite Ha; done).
    exists (S n). split_and!; [done| |done]. intros _. by left.
  - destruct (String.eqb_spec family IPv4) as [->|Hn4]; [|apply Hskip].
    destruct (IPv4Allocator s) as [a|] eqn:Ha; [|apply Hskip].
    intros Hloop. apply allocateNextFamily_loop_frame in Hloop
      as (? & ? & ? & ? & _ & H4 & n & Hc).
    destruct (H4 eq_refl) as [? [a' Ha']].
    repeat split; try done; try (rewrite Ha' || rewrite Ha; done).
    exists (S n). split_and!; [done| |done]. intros _. by right.
Qed.

(** *** Dual-stack allocation *)

(** C9. [AllocateNext] skips a family without any error: with a filter
    other than the two family names and the empty string it allocates
    nothing, changes nothing and returns three [nil]s (so for the filter
    [bogus]); a requested family whose allocator is not configured is
    passed over in the same way, the call then being the call for the other
    family alone, with a [nil] result for the family passed over. *)
Theorem AllocateNext_skips (fuel : nat) (family : string) metadata s :
  (family ≠ "ipv4" → family ≠ "ipv6" → family ≠ "" →
     AllocateNext fuel family metadata s = Some ((None, None, None), s))
  ∧ AllocateNext fuel "bogus" metadata s = Some ((None, None, None), s)
  ∧ (IPv6Allocator s = None →
       AllocateNext fuel "ipv6" metadata s = Some ((None, None, None), s)
       ∧ AllocateNext fuel "" metadata s = AllocateNext fuel "ipv4" metadata s
       ∧ ∀ r4 r6 err s', AllocateNext fuel "" metadata s = Some ((r4, r6, err), s') →
                         r6 = None)
  ∧ (IPv4Allocator s = None →
       AllocateNext fuel "ipv4" metadata s = Some ((None, None, None), s)
       ∧ AllocateNext fuel "" metadata s = AllocateNext fuel "ipv6" metadata s
       ∧ ∀ r4 r6 err s', AllocateNext fuel "" metadata s = Some ((r4, r6, err), s') →
                         r4 = None).
Proof.
  split_and!.
  - intros H4 H6 He. unfold AllocateNext.
    destruct (String.eqb_spec family "ipv6") as [|_]; [done|].
    destruct (String.eqb_spec family "") as [|_]; [done|].
    destruct (String.eqb_spec family "ipv4") as [|_]; [done|]. done.
  - done.
  - intros Hnone. unfold AllocateNext. cbn [String.eqb Ascii.eqb Bool.eqb orb andb].
    rewrite Hnone, (bool_decide_false (None ≠ None)) by (intros Hc; by apply Hc).
    split_and!; [done|done|].
    intros r4 r6 err s' Heq. repeat case_match; by simplify_eq.
  - intros Hnone. unfold AllocateNext. cbn [String.eqb Ascii.eqb Bool.eqb orb andb].
    split; [by rewrite Hnone, (bool_decide_false (None ≠ None)) by (intros Hc; by apply Hc)|].
    destruct (bool_decide (IPv6Allocator s ≠ None)); cbn [andb].
    + unfold AllocateNextFamily.
      destruct (allocateNextFamily fuel IPv6 true metadata s) as [[[r|e] s1]|] eqn:H6;
        [| |done].
      * apply allocateNextFamily_frame in H6 as (_ & _ & _ & _ & H6 & _).
        destruct (H6 eq_refl) as [-> _]. rewrite Hnone.
        rewrite bool_decide_false by (intros Hc; by apply Hc).
        split; [done|]. intros r4 r6 err s' Heq. by simplify_eq.
      * split; [done|]. intros r4 r6 err s' Heq. by simplify_eq.
    + rewrite Hnone. rewrite bool_decide_false by (intros Hc; by apply Hc).
      split; [done|]. intros r4 r6 err s' Heq. by simplify_eq.
Qed.

(** *** The blacklist retry loop *)

Lemma burned_keeps (owner_ : string) (skipped : list (AllocationResult IP)) :
  ∀ (m : gmap string string) (k : string),
    m !! k = Some (owner_ +:+ " (blacklisted)") →
    burned owner_ skipped m !! k = Some (owner_ +:+ " (blacklisted)").
Proof.
  induction skipped as [|r skipped IH]; intros m k Hk; [done|].
  cbn. apply IH. destruct (decide (net.String (IP_ r) = k)) as [->|Hne].
  - by rewrite lookup_insert_eq.
  - by rewrite lookup_insert_ne.
Qed.

Lemma burned_lookup (owner_ : string) (skipped : list (AllocationResult IP)) :
  ∀ (m : gmap string string) (r : AllocationResult IP),
    r ∈ skipped →
    burned owner_ skipped m !! net.String (IP_ r) = Some (owner_ +:+ " (blacklisted)").
Proof.
  induction skipped as [|r0 skipped IH]; intros m r Hin.
  - by apply elem_of_nil in Hin.
  - apply elem_of_cons in Hin as [->|Hin]; cbn.
    + apply burned_keeps. by rewrite lookup_insert_eq.
    + by apply IH.
Qed.

(** The loop on a backend that answers with [skipped] and then [out]. *)
Lemma allocateNextFamily_loop_retries (family : Family) (sync : bool) metadata
    (bl : IP → bool) (a : A) (skipped : list (AllocationResult IP)) (a' : A)
    (out : res (AllocationResult IP)) :
  blacklist_retries bl (backendNext sync metadata) a skipped a' out →
  ∀ (fuel : nat) s,
    blacklist s = bl →
    (length skipped < fuel)%nat →
    ∃ s', allocateNextFamily_loop fuel family a sync metadata s = Some (out, s')
          ∧ backendCalls s' =
              (backendCalls s
               ++ replicate (S (length skipped)) (CallAllocateNext family sync metadata))%list
          ∧ owner s' =
              match out with
              | Ok r => <[net.String (IP_ r) := Owner metadata]>
                          (burned (Owner metadata) skipped (owner s))
              | Err _ => burned (Owner metadata) skipped (owner s)
              end.
Proof.
  induction 1 as [a a' out Hnext Hgood | a a1 r skipped a' out Hnext Hbad _ IH];
    intros [|fuel] s Hbl Hfuel; cbn in Hfuel; try lia;
    cbn [allocateNextFamily_loop]; unfold backendNext in Hnext; rewrite Hnext.
  - destruct out as [r|e].
    + destruct (set_allocator_frame family (Some a')
                  (called (CallAllocateNext family sync metadata) s))
        as (Ho & _ & Hb & _ & _ & _ & Hc).
      rewrite Hb. cbn [called blacklist set_backendCalls]. rewrite Hbl, (Hgood r eq_refl).
      cbn [negb]. eexists. split; [done|]. cbn. by rewrite Hc, Ho.
    + eexists. split; [done|].
      destruct (set_allocator_frame family (Some a')
                  (called (CallAllocateNext family sync metadata) s))
        as (Ho & _ & _ & _ & _ & _ & Hc).
      by rewrite Hc, Ho.
  - destruct (set_allocator_frame family (Some a1)
                (called (CallAllocateNext family sync metadata) s))
      as (Ho & _ & Hb & _ & _ & _ & Hc).
    rewrite Hb. cbn [called blacklist set_backendCalls]. rewrite Hbl, Hbad. cbn [negb].
    edestruct (IH fuel) as (s' & Hrun & Hcalls & Howner); [| |
      exists s'; split; [exact Hrun|]].
    + cbn. by rewrite Hb.
    + lia.
    + rewrite Hcalls, Howner. cbn. rewrite Hc, Ho. cbn.
      by rewrite <-(assoc_L (++)).
Qed.

(** C4. On a valid family with its allocator present, when the backend
    answers with the blacklisted results [skipped] and then with [out],
    the call returns [out] as soon as the bound on the iterations exceeds
    the number of skipped results: a result that is not blacklisted is
    recorded under [metadata.Owner] and returned, a backend error is
    returned at once.  The backend has then been asked once per skipped
    result and once more, and was never asked to release; every skipped
    result stays in the ledger under the blacklist-marked owner name. *)
Theorem allocateNextFamily_retries (fuel : nat) (family : Family) (sync : bool) metadata s
    (a : A) (skipped : list (AllocationResult IP)) (a' : A)
    (out : res (AllocationResult IP)) :
  (family = IPv4 ∧ IPv4Allocator s = Some a) ∨ (family = IPv6 ∧ IPv6Allocator s = Some a) →
  blacklist_retries (blacklist s) (backendNext sync metadata) a skipped a' out →
  (length skipped < fuel)%nat →
  ∃ s', allocateNextFamily fuel family sync metadata s = Some (out, s')
        ∧ backendCalls s' =
            (backendCalls s
             ++ replicate (S (length skipped)) (CallAllocateNext family sync metadata))%list
        ∧ owner s' =
            match out with
            | Ok r => <[net.String (IP_ r) := Owner metadata]>
                        (burned (Owner metadata) skipped (owner s))
            | Err _ => burned (Owner metadata) skipped (owner s)
            end
        ∧ (∀ r, out = Ok r → owner s' !! net.String (IP_ r) = Some (Owner metadata))
        ∧ (∀ r, r ∈ skipped →
             (∀ r', out = Ok r' → net.String (IP_ r') ≠ net.String (IP_ r)) →
             owner s' !! net.String (IP_ r)
               = Some (Owner metadata +:+ " (blacklisted)")).
Proof.
  intros Hfam Hretries Hfuel.
  destruct (allocateNextFamily_loop_retries family sync metadata _ _ _ _ _
              Hretries fuel s eq_refl Hfuel) as (s' & Hrun & Hcalls & Howner).
  exists s'. split_and!; [|done|done| |].
  - unfold allocateNextFamily. destruct Hfam as [[-> ->]|[-> ->]]; done.
  - intros r ->. by rewrite Howner, lookup_insert_eq.
  - intros r Hin Hne. rewrite Howner. destruct out as [r'|e].
    + rewrite lookup_insert_ne by by apply Hne. by apply burned_lookup.
    + by apply burned_lookup.
Qed.

(** *** Release by address or owner *)

Lemma release_all_length (ips : list IP) :
  ∀ s, length (release_all ips s).1 = length ips.
Proof.
  induction ips as [|ip ips IH]; intros s; [done|].
  cbn. destruct (ReleaseIP ip s) as [e s1]. specialize (IH s1).
  destruct (release_all ips s1) as [es s2]. cbn in *. by rewrite IH.
Qed.

(** The loop returns the last failure of the run, and the error it
    started with when nothing failed. *)
Lemma ReleaseIPString_loop_spec (ips : list IP) :
  ∀ (err : option error) s,
    ReleaseIPString_loop ips err s =
      (match last_failure (release_all ips s).1 with
       | Some e => Some e
       | None => err
       end, (release_all ips s).2).
Proof.
  induction ips as [|ip ips IH]; intros err s; [done|].
  cbn. destruct (ReleaseIP ip s) as [e s1]. rewrite IH.
  destruct (release_all ips s1) as [es s2]. cbn.
  unfold last_failure. destruct e as [e|]; cbn; [|done].
  rewrite last_cons. by destruct (last (omap id es)).
Qed.

(** C7. A token that parses as an address releases exactly that address.
    For any other token the candidates are the ledger keys owned by the
    token that parse as addresses, in the order of the ledger scan; all of
    them are released one after the other whatever the earlier releases
    returned, and the error returned is the one of the last release that
    failed, [nil] when none failed.  Without a candidate, and so when no
    ledger entry is owned by the token, the error for an invalid address or
    owner name is returned and the state is unchanged. *)
Theorem ReleaseIPString_spec (releaseArg : string) s :
  (∀ m, range_owner m ≡ₚ map_to_list m) →
  match net.ParseIP releaseArg with
  | Some ip => ReleaseIPString range_owner releaseArg s = ReleaseIP ip s
  | None =>
    let ips := lookupIPsByOwner range_owner releaseArg s in
    ips ≡ₚ owned_addresses releaseArg (owner s)
    ∧ (∀ k ip, owner s !! k = Some releaseArg → net.ParseIP k = Some ip → ip ∈ ips)
    ∧ length (release_all ips s).1 = length ips
    ∧ (ips ≠ [] →
         ReleaseIPString range_owner releaseArg s =
           (last_failure (release_all ips s).1, (release_all ips s).2))
    ∧ (ips = [] →
         ReleaseIPString range_owner releaseArg s =
           (Some (fmt.Errorf ("Invalid IP address or owner name: " +:+ releaseArg)), s))
    ∧ ((∀ k, owner s !! k ≠ Some releaseArg) → ips = [])
  end.
Proof.
  intros Hperm. unfold ReleaseIPString.
  destruct (net.ParseIP releaseArg) as [ip|] eqn:Hparse.
  - cbn. by destruct (ReleaseIP ip s) as [[e|] s1].
  - cbn zeta.
    assert (Hips : lookupIPsByOwner range_owner releaseArg s
                   ≡ₚ owned_addresses releaseArg (owner s)).
    { unfold lookupIPsByOwner, owned_addresses. by rewrite Hperm. }
    assert (Hin : ∀ ip, ip ∈ lookupIPsByOwner range_owner releaseArg s ↔
                        ∃ k, owner s !! k = Some releaseArg ∧ net.ParseIP k = Some ip).
    { intros ip. rewrite Hips. unfold owned_addresses. rewrite list_elem_of_omap. split.
      - intros [[k o] [Hk Hf]]. apply elem_of_map_to_list in Hk.
        destruct (String.eqb_spec o releaseArg) as [->|]; [eauto|done].
      - intros (k & Hk & Hp). exists (k, releaseArg). split.
        + by apply elem_of_map_to_list.
        + by rewrite String.eqb_refl. }
    split_and!.
    + done.
    + intros k ip Hk Hp. apply Hin. eauto.
    + apply release_all_length.
    + intros Hne. destruct (lookupIPsByOwner range_owner releaseArg s) as [|ip ips] eqn:Hl;
        [done|]. cbn [length Nat.eqb]. rewrite ReleaseIPString_loop_spec.
      by destruct (last_failure _).
    + by intros ->.
    + intros Hnone. destruct (lookupIPsByOwner range_owner releaseArg s) as [|ip ips] eqn:Hl;
        [done|]. exfalso.
      destruct (proj1 (Hin ip)) as (k & Hk & _); [apply elem_of_cons; by left|].
      by apply (Hnone k).
Qed.

(** *** Rollback of the dual-stack allocation *)

Lemma requested_configured (family want : string) (alloc : option A) :
  (String.eqb family want || String.eqb family "") && bool_decide (alloc ≠ None) = true
  ↔ (family = want ∨ family = "") ∧ alloc ≠ None.
Proof.
  rewrite andb_true_iff, orb_true_iff, !String.eqb_eq, bool_decide_eq_true. done.
Qed.

(** A release asks at most one backend, once, to release the address. *)
Lemma releaseIPLocked_calls ip s :
  backendCalls (releaseIPLocked ip s).2 = backendCalls s
  ∨ ∃ fam, backendCalls (releaseIPLocked ip s).2
           = (backendCalls s ++ [CallRelease fam ip])%list.
Proof.
  unfold releaseIPLocked.
  destruct (net.To4 ip);
    [destruct (IPv4Allocator s) as [a|] | destruct (IPv6Allocator s) as [a|]];
    try (by left);
    destruct (Allocator.Release a ip) as [a' [e|]]; right; eexists; done.
Qed.

(** C2, as the code has it. (1) The backend calls of [AllocateNext] are,
    in this order: next-address calls to the IPv6 backend, made only if
    IPv6 is requested and configured; next-address calls to the IPv4 backend,
    made only if IPv4 is requested and configured; and at most one release
    call, for the IPv6 result, made only when the call ends in an error
    after that result was obtained.  (2) When the IPv6 allocation succeeds
    and the IPv4 allocation that follows fails, [ReleaseIP] runs on the
    IPv6 address before the IPv4 error is returned, its own result being
    dropped: the address is gone from the ledger and the timer table if that
    release succeeds. *)
Theorem AllocateNext_dual_stack (fuel : nat) (family : string) metadata s :
  (∀ out s', AllocateNext fuel family metadata s = Some (out, s') →
     ∃ (n6 n4 : nat) (rel : list Call),
       backendCalls s' =
         (backendCalls s ++ replicate n6 (CallAllocateNext IPv6 true metadata)
          ++ replicate n4 (CallAllocateNext IPv4 true metadata) ++ rel)%list
       ∧ ((0 < n6)%nat → (family = "ipv6" ∨ family = "") ∧ IPv6Allocator s ≠ None)
       ∧ ((0 < n4)%nat → (family = "ipv4" ∨ family = "") ∧ IPv4Allocator s ≠ None)
       ∧ (rel = [] ∨ ∃ r6 e fam, out = (None, Some r6, Some e)
                                 ∧ rel = [CallRelease fam (IP_ r6)]))
  ∧ (∀ r6 s1 e s2,
       family = "" →
       AllocateNextFamily fuel IPv6 metadata s = Some (Ok r6, s1) →
       IPv4Allocator s ≠ None →
       AllocateNextFamily fuel IPv4 metadata s1 = Some (Err e, s2) →
       AllocateNext fuel family metadata s =
         Some ((None, Some r6, Some e), (ReleaseIP (IP_ r6) s2).2)
       ∧ ((ReleaseIP (IP_ r6) s2).1 = None →
            owner (ReleaseIP (IP_ r6) s2).2 !! net.String (IP_ r6) = None
            ∧ expirationTimers (ReleaseIP (IP_ r6) s2).2 !! net.String (IP_ r6) = None)).
Proof.
  split.
  - intros out s' Hrun. unfold AllocateNext in Hrun.
    destruct ((String.eqb family "ipv6" || String.eqb family "")
              && bool_decide (IPv6Allocator s ≠ None)) eqn:Hc6.
    + apply requested_configured in Hc6.
      unfold AllocateNextFamily in Hrun.
      destruct (allocateNextFamily fuel IPv6 true metadata s) as [[[r6|e6] s1]|] eqn:Hv6;
        [| |done].
      * apply allocateNextFamily_frame in Hv6 as (_ & _ & _ & _ & Hf6 & _ & n6 & Hcalls6 & _).
        destruct (Hf6 eq_refl) as [Hsame4 _].
        destruct ((String.eqb family "ipv4" || String.eqb family "")
                  && bool_decide (IPv4Allocator s1 ≠ None)) eqn:Hc4.
        -- apply requested_configured in Hc4. rewrite Hsame4 in Hc4.
           destruct (allocateNextFamily fuel IPv4 true metadata s1)
             as [[[r4|e4] s2]|] eqn:Hv4; [| |done];
             apply allocateNextFamily_frame in Hv4
               as (_ & _ & _ & _ & _ & _ & n4 & Hcalls4 & _); simplify_eq.
           ++ exists n6, n4, []. rewrite Hcalls4, Hcalls6, app_nil_r, <-(assoc_L (++)).
              split_and!; [done|done|done|by left].
           ++ destruct (releaseIPLocked_calls (IP_ r6) s2) as [Hrel|[fam Hrel]].
              ** exists n6, n4, []. unfold ReleaseIP.
                 rewrite Hrel, Hcalls4, Hcalls6, app_nil_r, <-(assoc_L (++)).
                 split_and!; [done|done|done|by left].
              ** exists n6, n4, [CallRelease fam (IP_ r6)]. unfold ReleaseIP.
                 rewrite Hrel, Hcalls4, Hcalls6, <-!(assoc_L (++)).
                 split_and!; [done|done|done|right; eauto].
        -- simplify_eq. exists n6, 0%nat, []. rewrite Hcalls6. cbn. rewrite app_nil_r.
           split_and!; [done|done|lia|by left].
      * apply allocateNextFamily_frame in Hv6 as (_ & _ & _ & _ & _ & _ & n6 & Hcalls6 & _).
        simplify_eq. exists n6, 0%nat, []. rewrite Hcalls6. cbn. rewrite app_nil_r.
        split_and!; [done|done|lia|by left].
    + destruct ((String.eqb family "ipv4" || String.eqb family "")
                && bool_decide (IPv4Allocator s ≠ None)) eqn:Hc4.
      * apply requested_configured in Hc4. unfold AllocateNextFamily in Hrun.
        destruct (allocateNextFamily fuel IPv4 true metadata s)
          as [[[r4|e4] s2]|] eqn:Hv4; [| |done];
          apply allocateNextFamily_frame in Hv4
            as (_ & _ & _ & _ & _ & _ & n4 & Hcalls4 & _); simplify_eq;
          exists 0%nat, n4, []; rewrite Hcalls4; cbn; rewrite app_nil_r;
          (split_and!; [done|lia|done|by left]).
      * simplify_eq. exists 0%nat, 0%nat, []. cbn. rewrite app_nil_r.
        split_and!; [done|lia|lia|by left].
  - intros r6 s1 e s2 -> Hv6 Hcfg4 Hv4. split.
    + unfold AllocateNext. cbn [String.eqb Ascii.eqb Bool.eqb orb andb].
      assert (Hcfg6 : IPv6Allocator s ≠ None).
      { intros Hnone. unfold AllocateNextFamily, allocateNextFamily in Hv6. cbn in Hv6.
        by rewrite Hnone in Hv6. }
      rewrite (bool_decide_true _ Hcfg6), Hv6.
      unfold AllocateNextFamily in Hv6.
      apply allocateNextFamily_frame in Hv6 as (_ & _ & _ & _ & Hf6 & _).
      destruct (Hf6 eq_refl) as [Hsame4 _]. rewrite <-Hsame4 in Hcfg4.
      by rewrite (bool_decide_true _ Hcfg4), Hv4.
    + intros Hok. unfold ReleaseIP in *.
      pose proof (releaseIPLocked_tables (IP_ r6) s2) as Htab.
      destruct (releaseIPLocked (IP_ r6) s2) as [[e'|] s3]; [done|].
      destruct Htab as [Ho Ht]. cbn. by rewrite Ho, Ht, !lookup_delete_eq.
Qed.

(** *** Rollback of the allocation with expiration *)

(** A run of releases never adds an entry to the ledger or the timer
    table. *)
Lemma release_all_absent (ips : list IP) :
  ∀ s (k : string),
    (owner s !! k = None → owner (release_all ips s).2 !! k = None)
    ∧ (expirationTimers s !! k = None →
       expirationTimers (release_all ips s).2 !! k = None).
Proof.
  induction ips as [|ip ips IH]; intros s k; [done|].
  cbn. unfold ReleaseIP. pose proof (releaseIPLocked_tables ip s) as Htab.
  destruct (releaseIPLocked ip s) as [e s1]. specialize (IH s1 k).
  destruct (release_all ips s1) as [es s2]. cbn in *.
  destruct IH as [IHo IHt].
  split; intros Hk; [apply IHo|apply IHt]; destruct e; destruct Htab as [Ho Ht];
    rewrite ?Ho, ?Ht; try done;
    (destruct (decide (net.String ip = k)) as [->|];
     [by rewrite lookup_delete_eq|by rewrite lookup_delete_ne]).
Qed.

(** The address of every release of the run that returned [nil] is in
    neither table when the run is over. *)
Lemma release_all_removed (ips : list IP) :
  ∀ s (i : nat) ip,
    ips !! i = Some ip →
    (release_all ips s).1 !! i = Some None →
    owner (release_all ips s).2 !! net.String ip = None
    ∧ expirationTimers (release_all ips s).2 !! net.String ip = None.
Proof.
  induction ips as [|ip0 ips IH]; intros s i ip Hi Hok; [done|].
  cbn in Hok |- *. unfold ReleaseIP in *.
  pose proof (releaseIPLocked_tables ip0 s) as Htab.
  destruct (releaseIPLocked ip0 s) as [e s1].
  pose proof (release_all_absent ips s1 (net.String ip)) as Habs.
  specialize (IH s1).
  destruct (release_all ips s1) as [es s2]. cbn in *.
  destruct i as [|i]; cbn in *.
  - simplify_eq. destruct Htab as [Ho Ht]. destruct Habs as [Habso Habst].
    split; [apply Habso; by rewrite Ho, lookup_delete_eq
           |apply Habst; by rewrite Ht, lookup_delete_eq].
  - by apply (IH i).
Qed.

Lemma releaseResults_release_all (r4 r6 : option (AllocationResult IP)) s :
  releaseResults r4 r6 s = (release_all (allocated r4 r6) s).2.
Proof.
  unfold releaseResults, allocated.
  destruct r4 as [x4|], r6 as [x6|]; cbn; try done.
  - destruct (ReleaseIP (IP_ x4) s) as [e1 s1]. cbn.
    by destruct (ReleaseIP (IP_ x6) s1).
  - by destruct (ReleaseIP (IP_ x4) s).
  - by destruct (ReleaseIP (IP_ x6) s).
Qed.

(** C8, as the code has it.  After a dual-stack allocation that went
    well: with timeout zero no timer is started and the allocation is the
    result; with a timeout, when the timer of the IPv4 result cannot be
    started, or the timer of the IPv6 result cannot be started after the
    one of the IPv4 result was, [ReleaseIP] runs on the address of every
    result of the call, the IPv4 one first, before the timer error is
    returned.  The results of these releases are dropped: an address whose
    release succeeds is in neither the ledger nor the timer table
    afterwards. *)
Theorem AllocateNextWithExpiration_rollback (fuel : nat) (family : string) (timeout : Z)
    metadata s (r4 r6 : option (AllocationResult IP)) s1 :
  AllocateNext fuel family metadata s = Some ((r4, r6, None), s1) →
  (timeout = 0%Z →
     AllocateNextWithExpiration NewUUID fuel family timeout metadata s
       = Some ((r4, r6, None), s1))
  ∧ (timeout ≠ 0%Z →
     (∀ x4, r4 = Some x4 →
        is_Some (expirationTimers s1 !! net.String (IP_ x4)) →
        AllocateNextWithExpiration NewUUID fuel family timeout metadata s
          = Some ((Some (set_ExpirationUUID "" x4), r6,
                   Some (fmt.Errorf "expiration timer already registered")),
                  (release_all (allocated r4 r6) s1).2))
     ∧ (∀ x6 r4' s2, r6 = Some x6 →
          (r4 = None ∧ r4' = None ∧ s2 = s1
           ∨ ∃ x4 u, r4 = Some x4 ∧ r4' = Some (set_ExpirationUUID u x4)
                     ∧ StartExpirationTimer NewUUID (IP_ x4) timeout s1 = (u, None, s2)) →
          is_Some (expirationTimers s2 !! net.String (IP_ x6)) →
          AllocateNextWithExpiration NewUUID fuel family timeout metadata s
            = Some ((r4', Some (set_ExpirationUUID "" x6),
                     Some (fmt.Errorf "expiration timer already registered")),
                    (release_all (allocated r4 r6) s2).2)))
  ∧ (∀ t (i : nat) ip,
       allocated r4 r6 !! i = Some ip →
       (release_all (allocated r4 r6) t).1 !! i = Some None →
       owner (release_all (allocated r4 r6) t).2 !! net.String ip = None
       ∧ expirationTimers (release_all (allocated r4 r6) t).2 !! net.String ip = None).
Proof.
  intros Hrun. split_and!.
  - intros ->. unfold AllocateNextWithExpiration. by rewrite Hrun.
  - intros Hto. unfold AllocateNextWithExpiration. rewrite Hrun.
    rewrite (bool_decide_true _ Hto). split.
    + intros x4 -> Hreg.
      rewrite (StartExpirationTimer_registered _ _ _ Hreg).
      by rewrite releaseResults_release_all.
    + intros x6 r4' s2 -> Hfirst Hreg.
      destruct Hfirst as [(-> & -> & ->)|(x4 & u & -> & -> & Hstart)].
      * rewrite (StartExpirationTimer_registered _ _ _ Hreg).
        by rewrite releaseResults_release_all.
      * rewrite Hstart. rewrite (StartExpirationTimer_registered _ _ _ Hreg).
        by rewrite releaseResults_release_all.
  - intros t. apply release_all_removed.
Qed.

(** *** The timer race *)

Lemma allocateIP_ok ip (sync : bool) metadata s s' :
  allocateIP ip sync metadata s = (None, s') →
  owner s' = <[net.String ip := Owner metadata]> (owner s)
  ∧ expirationTimers s' = expirationTimers s
  ∧ uuidsIssued s' = uuidsIssued s.
Proof.
  unfold allocateIP. destruct (blacklist s ip); [done|].
  destruct (net.To4 ip);
    [destruct (IPv4Allocator s) as [a|] | destruct (IPv6Allocator s) as [a|]];
    try done;
    destruct (if sync then _ else _) as [a' [e|]]; try done;
    by intros [= <-].
Qed.

(** X14. A timer is started for an address, the address is released and
    allocated again, and a second timer is started for it: when the watcher
    of the first timer fires then, nothing happens, and the address is
    still in the ledger under its new owner. *)
Lemma timer_race ip (timeout timeout' : Z) (sync : bool) metadata
    (T1 T2 : string) s0 s1 s2 s3 s4 :
  Inj (=) (=) NewUUID →
  StartExpirationTimer NewUUID ip timeout s0 = (T1, None, s1) →
  ReleaseIP ip s1 = (None, s2) →
  allocateIP ip sync metadata s2 = (None, s3) →
  StartExpirationTimer NewUUID ip timeout' s3 = (T2, None, s4) →
  expirationWatcher ip T1 s4 = s4
  ∧ owner s4 !! net.String ip = Some (Owner metadata).
Proof.
  intros Hinj Hstart1 Hrel Halloc Hstart2.
  unfold StartExpirationTimer in Hstart1, Hstart2.
  destruct (expirationTimers s0 !! net.String ip); [done|].
  destruct (expirationTimers s3 !! net.String ip); [done|].
  injection Hstart1 as <- <-. injection Hstart2 as <- <-.
  destruct (releaseIPLocked_frame ip
              (set_goroutines (goroutines s0 ++ [(ip, NewUUID (uuidsIssued s0), timeout)])
                 (set_expirationTimers
                    (<[net.String ip := NewUUID (uuidsIssued s0)]> (expirationTimers s0))
                    (set_uuidsIssued (S (uuidsIssued s0)) s0)))) as (_ & Hu & _).
  unfold ReleaseIP in Hrel. rewrite Hrel in Hu. cbn in Hu.
  apply allocateIP_ok in Halloc as (Ho & _ & Hu3).
  split.
  - unfold expirationWatcher. cbn. rewrite lookup_insert_eq.
    destruct (String.eqb_spec (NewUUID (uuidsIssued s3)) (NewUUID (uuidsIssued s0)))
      as [Heq|]; [|done].
    apply Hinj in Heq. lia.
  - cbn. by rewrite Ho, lookup_insert_eq.
Qed.

(** *** The timer table along the steps of the coordinator *)

Lemma allocateIP_frame ip (sync : bool) metadata s :
  let s' := (allocateIP ip sync metadata s).2 in
  expirationTimers s' = expirationTimers s ∧ uuidsIssued s' = uuidsIssued s
  ∧ goroutines s' = goroutines s ∧ blacklist s' = blacklist s.
Proof.
  unfold allocateIP. destruct (blacklist s ip); [done|].
  destruct (net.To4 ip);
    [destruct (IPv4Allocator s) as [a|] | destruct (IPv6Allocator s) as [a|]];
    try done;
    destruct (if sync then _ else _) as [a' [e|]]; done.
Qed.

(** A step that registers no timer keeps the other timer entries or drops
    some, and spawns no watcher. *)
Lemma timers_wf_shrink s s' :
  (∀ k u, expirationTimers s' !! k = Some u → expirationTimers s !! k = Some u) →
  uuidsIssued s' = uuidsIssued s →
  goroutines s' = goroutines s →
  timers_wf NewUUID s → timers_wf NewUUID s'.
Proof.
  intros Hsub Hu Hg (Hissued & Hspawned & Hinj & Hnodup & Hwatch).
  unfold timers_wf, watcher_tokens. rewrite Hu, Hg. split_and!; [| done | | done |].
  - intros k u Hk. eauto.
  - intros k1 k2 u H1 H2. eauto.
  - intros k u Hk. eauto.
Qed.

Lemma releaseIPLocked_timers_wf ip s :
  timers_wf NewUUID s → timers_wf NewUUID (releaseIPLocked ip s).2.
Proof.
  destruct (releaseIPLocked_frame ip s) as (_ & Hu & Hg).
  pose proof (releaseIPLocked_tables ip s) as Htab.
  apply timers_wf_shrink; [|done|done].
  intros k u. destruct (releaseIPLocked ip s) as [[e|] s1]; cbn in *;
    destruct Htab as [_ ->]; [done|].
  intros Hk. by apply lookup_delete_Some in Hk as [_ Hk].
Qed.

Lemma step_timers_wf s s' :
  Inj (=) (=) NewUUID →
  step NewUUID s s' → timers_wf NewUUID s → timers_wf NewUUID s'.
Proof.
  intros Hinj Hstep Hwf.
  destruct Hstep as [ip sync metadata s | fuel family sync metadata s out s' Hrun | ip s
                    | ip timeout s | ip u s | ip u timeout s Hin].
  - destruct (allocateIP_frame ip sync metadata s) as (Ht & Hu & Hg & _).
    apply (timers_wf_shrink s); [by rewrite Ht|done|done|done].
  - apply allocateNextFamily_frame in Hrun as (_ & Ht & Hu & Hg & _).
    apply (timers_wf_shrink s); [by rewrite Ht|done|done|done].
  - by apply releaseIPLocked_timers_wf.
  - unfold StartExpirationTimer.
    destruct (expirationTimers s !! net.String ip) eqn:Hfree; [done|].
    destruct Hwf as (Hissued & Hspawned & Hinjt & Hnodup & Hwatch).
    assert (Hfresh_t : ∀ k, expirationTimers s !! k ≠ Some (NewUUID (uuidsIssued s))).
    { intros k Hk. destruct (Hissued _ _ Hk) as (n & Hn & Heq). apply Hinj in Heq. lia. }
    assert (Hfresh_w : NewUUID (uuidsIssued s) ∉ watcher_tokens s).
    { intros Hw. destruct (Hspawned _ Hw) as (n & Hn & Heq). apply Hinj in Heq. lia. }
    unfold timers_wf, watcher_tokens in *. cbn.
    rewrite fmap_app. cbn. split_and!.
    + intros k u. rewrite lookup_insert. case_decide.
      * intros [= <-]. exists (uuidsIssued s). split; [lia|done].
      * intros Hk. destruct (Hissued _ _ Hk) as (n & Hn & ->). exists n. split; [lia|done].
    + intros u. rewrite elem_of_app, list_elem_of_singleton. intros [Hu| ->].
      * destruct (Hspawned _ Hu) as (n & Hn & ->). exists n. split; [lia|done].
      * exists (uuidsIssued s). split; [lia|done].
    + intros k1 k2 u. rewrite !lookup_insert.
      repeat case_decide; intros Ha Hb; simplify_eq; try done;
        try (exfalso; by eapply Hfresh_t); eauto.
    + apply NoDup_app. split_and!; [done| |apply NoDup_singleton].
      intros u Hu ->%list_elem_of_singleton. done.
    + intros k u. rewrite lookup_insert. case_decide.
      * intros [= <-]. exists ip, timeout. split; [done|].
        apply elem_of_app. right. by apply list_elem_of_singleton.
      * intros Hk. destruct (Hwatch _ _ Hk) as (ip' & d & Hs & Hin).
        exists ip', d. split; [done|]. apply elem_of_app. by left.
  - unfold StopExpirationTimer.
    destruct (expirationTimers s !! net.String ip) as [current|]; [|done].
    destruct (negb (String.eqb current u)); [done|].
    apply (timers_wf_shrink s); [|done|done|done]. cbn.
    intros k u' Hk. by apply lookup_delete_Some in Hk as [_ Hk].
  - unfold expirationWatcher.
    destruct (expirationTimers s !! net.String ip) as [current|]; [|done].
    destruct (String.eqb current u); [|done].
    by apply releaseIPLocked_timers_wf.
Qed.

Lemma no_timers_wf s : no_timers s → timers_wf NewUUID s.
Proof.
  intros [Ht Hg]. unfold timers_wf, watcher_tokens. rewrite Ht, Hg. cbn.
  split_and!; try (intros *; by rewrite ?lookup_empty); try (by intros ? ?%elem_of_nil).
  apply NoDup_nil_2.
Qed.

Lemma rtc_timers_wf s0 s :
  Inj (=) (=) NewUUID →
  timers_wf NewUUID s0 → rtc (step NewUUID) s0 s → timers_wf NewUUID s.
Proof.
  intros Hinj Hwf Hreach. induction Hreach as [s|s s1 s2 Hstep _ IH]; [done|].
  apply IH. by apply (step_timers_wf s).
Qed.

(** A watcher whose token is not the registered one changes nothing. *)
Ltac stale_watcher :=
  unfold expirationWatcher;
  match goal with
  | |- context [expirationTimers ?s !! ?k] =>
    destruct (expirationTimers s !! k) as [?current|] eqn:?Hcurrent; [|done];
    match goal with
    | |- context [String.eqb ?x ?y] =>
      destruct (String.eqb_spec x y) as [?Heq|?Hne]; [|done]
    end
  end.

(** X1. From a coordinator without timers, after any sequence of steps:
    every timer entry belongs to a watcher that was spawned for that address
    with that token, no token is registered for two addresses, and no two
    watchers carry the same token. *)
Theorem reachable_timers_consistent s0 s :
  Inj (=) (=) NewUUID →
  no_timers s0 →
  rtc (step NewUUID) s0 s →
  (∀ k u, expirationTimers s !! k = Some u →
     ∃ ip timeout, net.String ip = k ∧ (ip, u, timeout) ∈ goroutines s)
  ∧ (∀ k1 k2 u, expirationTimers s !! k1 = Some u →
       expirationTimers s !! k2 = Some u → k1 = k2)
  ∧ NoDup (watcher_tokens s).
Proof.
  intros Hinj Hinit Hreach.
  destruct (rtc_timers_wf s0 s Hinj (no_timers_wf s0 Hinit) Hreach)
    as (_ & _ & Hinjt & Hnodup & Hwatch).
  done.
Qed.

(** X2. In such a state the token that [StartExpirationTimer] returns for
    an address without timer is new to the coordinator: it is registered for
    no address and carried by no watcher spawned before. *)
Theorem reachable_token_fresh s0 s ip (timeout : Z) :
  Inj (=) (=) NewUUID →
  no_timers s0 →
  rtc (step NewUUID) s0 s →
  expirationTimers s !! net.String ip = None →
  ∃ u s', StartExpirationTimer NewUUID ip timeout s = (u, None, s')
          ∧ (∀ k, expirationTimers s !! k ≠ Some u)
          ∧ u ∉ watcher_tokens s.
Proof.
  intros Hinj Hinit Hreach Hfree.
  destruct (rtc_timers_wf s0 s Hinj (no_timers_wf s0 Hinit) Hreach)
    as (Hissued & Hspawned & _).
  unfold StartExpirationTimer. rewrite Hfree. eexists _, _. split; [done|]. split.
  - intros k Hk. destruct (Hissued _ _ Hk) as (n & Hn & Heq). apply Hinj in Heq. lia.
  - intros Hw. destruct (Hspawned _ Hw) as (n & Hn & Heq). apply Hinj in Heq. lia.
Qed.

(** X3. In such a state two different watchers never carry the same
    token, so of two watchers for the same address at most one can release
    it: firing the other one changes nothing. *)
Theorem reachable_one_live_watcher s0 s (i j : nat) ip1 ip2 (u1 u2 : string) (d1 d2 : Z) :
  Inj (=) (=) NewUUID →
  no_timers s0 →
  rtc (step NewUUID) s0 s →
  goroutines s !! i = Some (ip1, u1, d1) →
  goroutines s !! j = Some (ip2, u2, d2) →
  i ≠ j →
  u1 ≠ u2
  ∧ (net.String ip1 = net.String ip2 →
     expirationWatcher ip1 u1 s = s ∨ expirationWatcher ip2 u2 s = s).
Proof.
  intros Hinj Hinit Hreach Hi Hj Hij.
  destruct (rtc_timers_wf s0 s Hinj (no_timers_wf s0 Hinit) Hreach)
    as (_ & _ & _ & Hnodup & _).
  assert (Hne : u1 ≠ u2).
  { intros <-. apply Hij. apply (NoDup_lookup _ i j u1 Hnodup); unfold watcher_tokens;
      rewrite list_lookup_fmap; [by rewrite Hi|by rewrite Hj]. }
  split; [done|]. intros Hsame.
  destruct (decide (expirationTimers s !! net.String ip1 = Some u1)) as [Hreg|Hreg].
  - right. unfold expirationWatcher. rewrite <-Hsame, Hreg.
    by destruct (String.eqb_spec u1 u2).
  - left. stale_watcher. congruence.
Qed.

(** X4. No step changes the ledger without calling a backend: after a
    step the ledger is the one before, or the list of backend calls has
    grown. *)
Theorem step_ledger_needs_backend s s' :
  step NewUUID s s' →
  owner s' = owner s
  ∨ ∃ c cs, backendCalls s' = (backendCalls s ++ c :: cs)%list.
Proof.
  assert (Hrel : ∀ ip s, owner (releaseIPLocked ip s).2 = owner s
                         ∨ ∃ c cs, backendCalls (releaseIPLocked ip s).2
                                   = (backendCalls s ++ c :: cs)%list).
  { intros ip t. unfold releaseIPLocked.
    destruct (net.To4 ip);
      [destruct (IPv4Allocator t) as [a|] | destruct (IPv6Allocator t) as [a|]];
      try (by left);
      destruct (Allocator.Release a ip) as [a' [e|]]; right; by eexists _, []. }
  intros [ip sync metadata t | fuel family sync metadata t out t' Hrun | ip t
         | ip timeout t | ip u t | ip u timeout t Hin].
  - unfold allocateIP. destruct (blacklist t ip); [by left|].
    destruct (net.To4 ip);
      [destruct (IPv4Allocator t) as [a|] | destruct (IPv6Allocator t) as [a|]];
      try (by left);
      destruct (if sync then _ else _) as [a' [e|]]; right; by eexists _, [].
  - unfold allocateNextFamily in Hrun.
    destruct (String.eqb family IPv6);
      [destruct (IPv6Allocator t) as [a|]
      |destruct (String.eqb family IPv4); [destruct (IPv4Allocator t) as [a|]|]];
      try (left; by simplify_eq);
      apply allocateNextFamily_loop_frame in Hrun as (_ & _ & _ & _ & _ & _ & n & Hcalls);
      right; by eexists _, _.
  - apply Hrel.
  - left. unfold StartExpirationTimer. by destruct (expirationTimers t !! net.String ip).
  - left. unfold StopExpirationTimer.
    destruct (expirationTimers t !! net.String ip) as [current|]; [|done].
    by destruct (negb (String.eqb current u)).
  - unfold expirationWatcher.
    destruct (expirationTimers t !! net.String ip) as [current|]; [|by left].
    destruct (String.eqb current u); [apply Hrel|by left].
Qed.

(** *** The operations that take the lock several times *)

Lemma AllocateNext_steps (fuel : nat) (family : string) metadata s out s' :
  AllocateNext fuel family metadata s = Some (out, s') → rtc (step NewUUID) s s'.
Proof.
  unfold AllocateNext, AllocateNextFamily. intros Hrun.
  destruct ((String.eqb family "ipv6" || String.eqb family "")
            && bool_decide (IPv6Allocator s ≠ None)).
  - destruct (allocateNextFamily fuel IPv6 true metadata s) as [[[r6|e6] s1]|] eqn:H6;
      [| |done].
    + apply (rtc_l _ _ s1); [by eapply step_allocateNextFamily|].
      destruct ((String.eqb family "ipv4" || String.eqb family "")
                && bool_decide (IPv4Allocator s1 ≠ None)); [|by simplify_eq].
      destruct (allocateNextFamily fuel IPv4 true metadata s1) as [[[r4|e4] s2]|] eqn:H4;
        [| |done]; simplify_eq.
      * apply rtc_once. by eapply step_allocateNextFamily.
      * apply (rtc_l _ _ s2); [by eapply step_allocateNextFamily|].
        apply rtc_once. apply step_ReleaseIP.
    + simplify_eq. apply rtc_once. by eapply step_allocateNextFamily.
  - destruct ((String.eqb family "ipv4" || String.eqb family "")
              && bool_decide (IPv4Allocator s ≠ None)); [|by simplify_eq].
    destruct (allocateNextFamily fuel IPv4 true metadata s) as [[[r4|e4] s2]|] eqn:H4;
      [| |done]; simplify_eq; apply rtc_once; by eapply step_allocateNextFamily.
Qed.

Lemma release_all_steps (ips : list IP) :
  ∀ s, rtc (step NewUUID) s (release_all ips s).2.
Proof.
  induction ips as [|ip ips IH]; intros s; [done|].
  cbn. pose proof (step_ReleaseIP NewUUID ip s) as Hstep.
  destruct (ReleaseIP ip s) as [e s1]. specialize (IH s1).
  destruct (release_all ips s1) as [es s2]. cbn in *.
  by apply (rtc_l _ _ s1).
Qed.

(** X5. [AllocateNext], [AllocateNextWithExpiration] and
    [ReleaseIPString] are sequences of steps of the coordinator: whatever
    holds after every step holds after each of them. *)
Theorem compound_operations_are_steps (fuel : nat) (family : string) (timeout : Z)
    metadata (releaseArg : string) s :
  (∀ out s', AllocateNext fuel family metadata s = Some (out, s') →
             rtc (step NewUUID) s s')
  ∧ (∀ out s', AllocateNextWithExpiration NewUUID fuel family timeout metadata s
                 = Some (out, s') →
               rtc (step NewUUID) s s')
  ∧ rtc (step NewUUID) s (ReleaseIPString range_owner releaseArg s).2.
Proof.
  split_and!.
  - intros out s'. apply AllocateNext_steps.
  - intros out s'. unfold AllocateNextWithExpiration.
    destruct (AllocateNext fuel family metadata s) as [[[[r4 r6] [e|]] s1]|] eqn:Hrun;
      [| |done].
    { intros ?; simplify_eq. by eapply AllocateNext_steps. }
    apply AllocateNext_steps in Hrun.
    destruct (bool_decide (timeout ≠ 0%Z)); [|intros ?; by simplify_eq].
    assert (Hstart : ∀ x t, rtc (step NewUUID) t
                              (StartExpirationTimer NewUUID x timeout t).2).
    { intros x t. apply rtc_once. apply step_StartExpirationTimer. }
    assert (Hroll : ∀ x4 x6 t, rtc (step NewUUID) t (releaseResults x4 x6 t)).
    { intros x4 x6 t. rewrite releaseResults_release_all. apply release_all_steps. }
    destruct r4 as [x4|].
    + pose proof (Hstart (IP_ x4) s1) as H4.
      destruct (StartExpirationTimer NewUUID (IP_ x4) timeout s1) as [[u4 [e4|]] s2];
        cbn in H4.
      { intros ?; simplify_eq. etrans; [done|]. etrans; [done|].
        apply (Hroll (Some x4) r6). }
      destruct r6 as [x6|].
      * pose proof (Hstart (IP_ x6) s2) as H6.
        destruct (StartExpirationTimer NewUUID (IP_ x6) timeout s2) as [[u6 [e6|]] s3];
          cbn in H6; intros ?; simplify_eq.
        -- etrans; [done|]. etrans; [done|]. etrans; [done|].
           apply (Hroll (Some x4) (Some x6)).
        -- etrans; [done|]. by etrans.
      * intros ?; simplify_eq. by etrans.
    + destruct r6 as [x6|].
      * pose proof (Hstart (IP_ x6) s1) as H6.
        destruct (StartExpirationTimer NewUUID (IP_ x6) timeout s1) as [[u6 [e6|]] s3];
          cbn in H6; intros ?; simplify_eq.
        -- etrans; [done|]. etrans; [done|]. apply (Hroll None (Some x6)).
        -- by etrans.
      * intros ?; by simplify_eq.
  - unfold ReleaseIPString. destruct (net.ParseIP releaseArg) as [ip|].
    + rewrite ReleaseIPString_loop_spec. apply release_all_steps.
    + destruct (Nat.eqb _ 0); [done|].
      rewrite ReleaseIPString_loop_spec. apply release_all_steps.
Qed.

(** *** What the allocations hand out *)

Lemma allocateNextFamily_loop_result (family : Family) (sync : bool) metadata (fuel : nat) :
  ∀ (a : A) s r s',
    allocateNextFamily_loop fuel family a sync metadata s = Some (Ok r, s') →
    blacklist s (IP_ r) = false
    ∧ owner s' !! net.String (IP_ r) = Some (Owner metadata).
Proof.
  induction fuel as [|fuel IH]; intros a s r s'; [done|].
  cbn [allocateNextFamily_loop].
  destruct (if sync then _ else _) as [a1 [result|e]]; [|done].
  destruct (set_allocator_frame family (Some a1)
              (called (CallAllocateNext family sync metadata) s))
    as (Ho & _ & Hb & _).
  cbn [called blacklist set_backendCalls] in Hb.
  destruct (blacklist _ (IP_ result)) eqn:Hbl; cbn [negb].
  - intros Hloop. apply IH in Hloop as [Hgood Hledger]. cbn in Hgood.
    split; [by rewrite <-Hb|done].
  - intros [= <- <-]. rewrite <-Hb. split; [done|]. cbn. by rewrite lookup_insert_eq.
Qed.

(** X6. No allocation hands out a blacklisted address: an address that
    [allocateIP] accepts, the result of [allocateNextFamily], and both
    results of [AllocateNext] are not blacklisted. *)
Theorem allocations_avoid_blacklist (fuel : nat) s :
  (∀ ip sync metadata s',
     allocateIP ip sync metadata s = (None, s') → blacklist s ip = false)
  ∧ (∀ family sync metadata r s',
       allocateNextFamily fuel family sync metadata s = Some (Ok r, s') →
       blacklist s (IP_ r) = false
       ∧ owner s' !! net.String (IP_ r) = Some (Owner metadata))
  ∧ (∀ family metadata r4 r6 err s',
       AllocateNext fuel family metadata s = Some ((r4, r6, err), s') →
       ∀ r, r4 = Some r ∨ r6 = Some r → blacklist s (IP_ r) = false).
Proof.
  assert (Hfam : ∀ t family sync metadata r t',
            allocateNextFamily fuel family sync metadata t = Some (Ok r, t') →
            blacklist t (IP_ r) = false
            ∧ owner t' !! net.String (IP_ r) = Some (Owner metadata)).
  { intros t family sync metadata r t'. unfold allocateNextFamily.
    destruct (String.eqb family IPv6);
      [destruct (IPv6Allocator t) as [a|]
      |destruct (String.eqb family IPv4); [destruct (IPv4Allocator t) as [a|]|]];
      try done; apply allocateNextFamily_loop_result. }
  split_and!.
  - intros ip sync metadata s'. unfold allocateIP. by destruct (blacklist s ip).
  - apply Hfam.
  - intros family metadata r4 r6 err s'. unfold AllocateNext, AllocateNextFamily.
    destruct ((String.eqb family "ipv6" || String.eqb family "")
              && bool_decide (IPv6Allocator s ≠ None)).
    + destruct (allocateNextFamily fuel IPv6 true metadata s) as [[[x6|e6] s1]|] eqn:H6;
        [| |done].
      * pose proof H6 as H6'. apply Hfam in H6' as [Hgood6 _].
        apply allocateNextFamily_frame in H6 as (Hb & _).
        destruct ((String.eqb family "ipv4" || String.eqb family "")
                  && bool_decide (IPv4Allocator s1 ≠ None)).
        -- destruct (allocateNextFamily fuel IPv4 true metadata s1)
             as [[[x4|e4] s2]|] eqn:H4; [| |done]; intros ? r [?|?]; simplify_eq; try done.
           apply Hfam in H4 as [Hgood4 _]. by rewrite <-Hb.
        -- intros ? r [?|?]; by simplify_eq.
      * intros ? r [?|?]; by simplify_eq.
    + destruct ((String.eqb family "ipv4" || String.eqb family "")
                && bool_decide (IPv4Allocator s ≠ None)).
      * destruct (allocateNextFamily fuel IPv4 true metadata s)
          as [[[x4|e4] s2]|] eqn:H4; [| |done]; intros ? r [?|?]; simplify_eq.
        by apply Hfam in H4 as [Hgood4 _].
      * intros ? r [?|?]; by simplify_eq.
Qed.

(** *** Dump *)

Lemma annotate_lookup (alloc : gmap string string) s (k : string) :
  annotate alloc s !! k = (λ _, default "" (owner s !! k)) <$> alloc !! k.
Proof. unfold annotate. rewrite map_lookup_imap. by destruct (alloc !! k). Qed.

(** X7. For a configured family [Dump] lists exactly the addresses the
    backend reports, each with the owner the ledger has for it and with the
    empty string when the ledger has none; what the backend reported as
    owner is not shown.  For a family that is not configured the map is
    [nil]. *)
Theorem Dump_annotates s :
  (∀ a m st, IPv4Allocator s = Some a → Allocator.Dump a = (m, st) →
     ∃ m', (Dump s).1.1 = Some m' ∧ dom m' = dom m
           ∧ ∀ k : string, k ∈ dom m → m' !! k = Some (default "" (owner s !! k)))
  ∧ (∀ a m st, IPv6Allocator s = Some a → Allocator.Dump a = (m, st) →
       ∃ m', (Dump s).1.2 = Some m' ∧ dom m' = dom m
             ∧ ∀ k : string, k ∈ dom m → m' !! k = Some (default "" (owner s !! k)))
  ∧ (IPv4Allocator s = None → (Dump s).1.1 = None)
  ∧ (IPv6Allocator s = None → (Dump s).1.2 = None).
Proof.
  assert (Hann : ∀ m, dom (annotate m s) = dom m
                      ∧ ∀ k : string, k ∈ dom m →
                              annotate m s !! k = Some (default "" (owner s !! k))).
  { intros m. split.
    - apply set_eq. intros k. rewrite !elem_of_dom, annotate_lookup.
      by rewrite fmap_is_Some.
    - intros k [v Hv]%elem_of_dom. by rewrite annotate_lookup, Hv. }
  unfold Dump. split_and!.
  - intros a m st -> Hd. rewrite Hd. exists (annotate m s).
    destruct (IPv6Allocator s) as [a6|]; [destruct (Allocator.Dump a6)|];
      cbn; (split; [done|apply Hann]).
  - intros a m st -> Hd. rewrite Hd. exists (annotate m s).
    destruct (IPv4Allocator s) as [a4|]; [destruct (Allocator.Dump a4)|];
      cbn; (split; [done|apply Hann]).
  - intros ->. by destruct (IPv6Allocator s) as [a6|]; [destruct (Allocator.Dump a6)|].
  - intros ->. by destruct (IPv4Allocator s) as [a4|]; [destruct (Allocator.Dump a4)|].
Qed.

(** *** Allocation of a chosen address *)

(** X9. For an address that is not blacklisted, [allocateIP] fails with
    the family-disabled error and changes nothing when the family has no
    allocator; it hands on the error of the backend and leaves ledger and
    counters alone when the backend refuses; and when the backend accepts it
    records the owner under the address and counts one allocation for the
    family. *)
Theorem allocateIP_atomic s ip (sync : bool) metadata :
  blacklist s ip = false →
  match (if net.To4 ip then IPv4Allocator s else IPv6Allocator s) with
  | None =>
    allocateIP ip sync metadata s =
      (Some (if net.To4 ip then ErrIPv4Disabled else ErrIPv6Disabled), s)
  | Some a =>
    match (if sync then Allocator.Allocate a ip metadata
           else Allocator.AllocateWithoutSyncUpstream a ip metadata).2 with
    | Some e =>
      ∃ s', allocateIP ip sync metadata s = (Some e, s')
            ∧ owner s' = owner s ∧ IpamEvent s' = IpamEvent s
    | None =>
      ∃ s', allocateIP ip sync metadata s = (None, s')
            ∧ owner s' = <[net.String ip := Owner metadata]> (owner s)
            ∧ IpamEvent s' =
                <[(metricAllocate, if net.To4 ip then familyIPv4 else familyIPv6) :=
                    S (default 0%nat
                         (IpamEvent s !! (metricAllocate,
                                          if net.To4 ip then familyIPv4 else familyIPv6)))]>
                  (IpamEvent s)
    end
  end.
Proof.
  intros Hbl. unfold allocateIP. rewrite Hbl.
  destruct (net.To4 ip);
    [destruct (IPv4Allocator s) as [a|] | destruct (IPv6Allocator s) as [a|]];
    try done;
    destruct (if sync then _ else _) as [a' [e|]]; cbn; eauto.
Qed.

(** X10. An address that is allocated and then released leaves the ledger
    without an entry for it, and so as it was when the address had no entry
    before; the timer table has no entry for the address either. *)
Theorem allocate_release_round_trip s ip (sync : bool) metadata s1 s2 :
  allocateIP ip sync metadata s = (None, s1) →
  ReleaseIP ip s1 = (None, s2) →
  owner s2 = delete (net.String ip) (owner s)
  ∧ expirationTimers s2 = delete (net.String ip) (expirationTimers s)
  ∧ (owner s !! net.String ip = None → owner s2 = owner s).
Proof.
  intros Halloc Hrel. apply allocateIP_ok in Halloc as (Ho & Ht & _).
  pose proof (releaseIPLocked_tables ip s1) as Htab. unfold ReleaseIP in Hrel.
  rewrite Hrel in Htab. destruct Htab as [Ho2 Ht2].
  rewrite Ho2, Ht2, Ho, Ht, delete_insert_eq. split_and!; [done|done|].
  intros Hnone. by apply delete_id.
Qed.

(** *** Starting and stopping timers *)

(** X11. A timer that is started and then stopped with the token it
    returned leaves the timer table as it was before; ledger and backends are
    not touched, and the watcher that was spawned changes nothing when it
    fires later. *)
Theorem start_stop_round_trip s ip (timeout : Z) :
  expirationTimers s !! net.String ip = None →
  ∃ u s1 s2,
    StartExpirationTimer NewUUID ip timeout s = (u, None, s1)
    ∧ StopExpirationTimer ip u s1 = (None, s2)
    ∧ expirationTimers s2 = expirationTimers s
    ∧ owner s2 = owner s
    ∧ backendCalls s2 = backendCalls s
    ∧ (ip, u, timeout) ∈ goroutines s2
    ∧ expirationWatcher ip u s2 = s2.
Proof.
  intros Hfree. unfold StartExpirationTimer. rewrite Hfree.
  eexists _, _, _. split; [done|].
  unfold StopExpirationTimer. cbn. rewrite lookup_insert_eq, String.eqb_refl. cbn.
  split; [done|]. rewrite delete_insert_id by done.
  split_and!; try done.
  - apply elem_of_app. right. by apply list_elem_of_singleton.
  - unfold expirationWatcher. cbn. by rewrite Hfree.
Qed.

(** X12. A timer that is started and not stopped: when its watcher fires
    the address is released, and if the backend releases it the address is
    gone from the ledger and from the timer table. *)
Theorem expiry_reclaims s ip (timeout : Z) :
  expirationTimers s !! net.String ip = None →
  ∃ u s1,
    StartExpirationTimer NewUUID ip timeout s = (u, None, s1)
    ∧ expirationWatcher ip u s1 = (ReleaseIP ip s1).2
    ∧ ((ReleaseIP ip s1).1 = None →
       owner (expirationWatcher ip u s1) !! net.String ip = None
       ∧ expirationTimers (expirationWatcher ip u s1) !! net.String ip = None).
Proof.
  intros Hfree. unfold StartExpirationTimer. rewrite Hfree.
  eexists _, _. split; [done|].
  set (s1 := set_goroutines _ _).
  assert (Hfire : expirationWatcher ip (NewUUID (uuidsIssued s)) s1 = (ReleaseIP ip s1).2).
  { unfold expirationWatcher. subst s1. cbn.
    by rewrite lookup_insert_eq, String.eqb_refl. }
  split; [done|]. rewrite Hfire. unfold ReleaseIP.
  pose proof (releaseIPLocked_tables ip s1) as Htab.
  destruct (releaseIPLocked ip s1) as [[e|] s2]; [done|].
  intros _. destruct Htab as [Ho Ht]. cbn. by rewrite Ho, Ht, !lookup_delete_eq.
Qed.

(** X13. [StopExpirationTimer] succeeds exactly when the timer table maps
    the address to the token given.  When it fails nothing changes; in any
    case the ledger and the timers of the other addresses stay as they
    were, and after a success the address has no timer. *)
Theorem StopExpirationTimer_spec s ip (allocationUUID : string) :
  ((StopExpirationTimer ip allocationUUID s).1 = None
   ↔ expirationTimers s !! net.String ip = Some allocationUUID)
  ∧ ((StopExpirationTimer ip allocationUUID s).1 ≠ None →
     (StopExpirationTimer ip allocationUUID s).2 = s)
  ∧ ((StopExpirationTimer ip allocationUUID s).1 = None →
     expirationTimers (StopExpirationTimer ip allocationUUID s).2 !! net.String ip = None)
  ∧ owner (StopExpirationTimer ip allocationUUID s).2 = owner s
  ∧ (∀ k, k ≠ net.String ip →
          expirationTimers (StopExpirationTimer ip allocationUUID s).2 !! k
          = expirationTimers s !! k).
Proof.
  unfold StopExpirationTimer.
  destruct (expirationTimers s !! net.String ip) as [current|] eqn:Hcur; [|done].
  destruct (String.eqb_spec current allocationUUID) as [->|Hne]; cbn.
  - split_and!; try done.
    + by rewrite lookup_delete_eq.
    + intros k Hk. by rewrite lookup_delete_ne.
  - split_and!; try done. split; [done|]. by intros [= ->].
Qed.

(** *** Release by owner, when every release succeeds *)

Lemma lookupIPsByOwner_elem (owner_ : string) s ip :
  (∀ m, range_owner m ≡ₚ map_to_list m) →
  ip ∈ lookupIPsByOwner range_owner owner_ s ↔
  ∃ k, owner s !! k = Some owner_ ∧ net.ParseIP k = Some ip.
Proof.
  intros Hperm. unfold lookupIPsByOwner. rewrite Hperm, list_elem_of_omap. split.
  - intros [[k o] [Hk Hf]]. apply elem_of_map_to_list in Hk.
    destruct (String.eqb_spec o owner_) as [->|]; [eauto|done].
  - intros (k & Hk & Hp). exists (k, owner_). split.
    + by apply elem_of_map_to_list.
    + by rewrite String.eqb_refl.
Qed.

(** X15. When the ledger keys of an owner are the canonical texts of the
    addresses they parse to and [ReleaseIPString] returns no error for the
    owner's name, none of these keys is left in the ledger. *)
Theorem ReleaseIPString_releases_all (releaseArg : string) s :
  (∀ m, range_owner m ≡ₚ map_to_list m) →
  net.ParseIP releaseArg = None →
  (∀ k ip, owner s !! k = Some releaseArg → net.ParseIP k = Some ip → net.String ip = k) →
  (ReleaseIPString range_owner releaseArg s).1 = None →
  ∀ k ip, owner s !! k = Some releaseArg → net.ParseIP k = Some ip →
          owner (ReleaseIPString range_owner releaseArg s).2 !! k = None.
Proof.
  intros Hperm Hparse Hcanon Hok k ip Hk Hp.
  assert (Hin : ip ∈ lookupIPsByOwner range_owner releaseArg s).
  { apply lookupIPsByOwner_elem; eauto. }
  unfold ReleaseIPString in *. rewrite Hparse in *.
  destruct (Nat.eqb (length (lookupIPsByOwner range_owner releaseArg s)) 0); [done|].
  rewrite ReleaseIPString_loop_spec in *. cbn in Hok |- *.
  apply list_elem_of_lookup in Hin as [i Hi].
  assert (Herr : (release_all (lookupIPsByOwner range_owner releaseArg s) s).1 !! i
                 = Some None).
  { destruct ((release_all (lookupIPsByOwner range_owner releaseArg s) s).1 !! i)
      as [[e|]|] eqn:He; [| done |].
    - exfalso. unfold last_failure in Hok.
      destruct (last (omap id _)) eqn:Hlast; [done|].
      apply last_None in Hlast.
      assert (Hmem : e ∈ omap id (release_all (lookupIPsByOwner range_owner releaseArg s) s).1).
      { apply list_elem_of_omap. exists (Some e). split; [|done].
        apply list_elem_of_lookup. eauto. }
      rewrite Hlast in Hmem. by apply elem_of_nil in Hmem.
    - apply lookup_ge_None in He. apply lookup_lt_Some in Hi.
      rewrite release_all_length in He. lia. }
  destruct (release_all_removed _ s i ip Hi Herr) as [Hgone _].
  by rewrite (Hcanon k ip Hk Hp) in Hgone.
Qed.

(** *** Allocation with expiration, when it succeeds *)


(** *** Counting allocations *)

Lemma allocateNextFamily_loop_counts (family : Family) (sync : bool) metadata
    (bl : IP → bool) (a : A) (skipped : list (AllocationResult IP)) (a' : A)
    (out : res (AllocationResult IP)) :
  blacklist_retries bl (backendNext sync metadata) a skipped a' out →
  ∀ (fuel : nat) s,
    blacklist s = bl →
    (length skipped < fuel)%nat →
    ∃ s', allocateNextFamily_loop fuel family a sync metadata s = Some (out, s')
          ∧ IpamEvent s' =
              match out with
              | Ok _ => <[(metricAllocate, family) :=
                            S (default 0%nat (IpamEvent s !! (metricAllocate, family)))]>
                          (IpamEvent s)
              | Err _ => IpamEvent s
              end.
Proof.
  induction 1 as [a a' out Hnext Hgood | a a1 r skipped a' out Hnext Hbad _ IH];
    intros [|fuel] s Hbl Hfuel; cbn in Hfuel; try lia;
    cbn [allocateNextFamily_loop]; unfold backendNext in Hnext; rewrite Hnext.
  - destruct (set_allocator_frame family (Some a')
                (called (CallAllocateNext family sync metadata) s))
      as (_ & _ & Hb & He & _).
    destruct out as [r|e].
    + rewrite Hb. cbn [called blacklist set_backendCalls]. rewrite Hbl, (Hgood r eq_refl).
      cbn [negb]. eexists. split; [done|]. cbn. by rewrite He.
    + eexists. split; [done|]. by rewrite He.
  - destruct (set_allocator_frame family (Some a1)
                (called (CallAllocateNext family sync metadata) s))
      as (_ & _ & Hb & He & _).
    rewrite Hb. cbn [called blacklist set_backendCalls]. rewrite Hbl, Hbad. cbn [negb].
    edestruct (IH fuel) as (s' & Hrun & Hcount); [| |exists s'; split; [exact Hrun|]].
    + cbn. by rewrite Hb.
    + lia.
    + rewrite Hcount. cbn. by rewrite He.
Qed.

(** X17. The blacklisted results that the retry loop skips are not
    counted: a call of [allocateNextFamily] that returns a result counts one
    allocation for the family, however many results were skipped, and a call
    that returns the error of the backend counts none. *)
Theorem allocateNextFamily_counts_once (fuel : nat) (family : Family) (sync : bool)
    metadata s (a : A) (skipped : list (AllocationResult IP)) (a' : A)
    (out : res (AllocationResult IP)) :
  (family = IPv4 ∧ IPv4Allocator s = Some a) ∨ (family = IPv6 ∧ IPv6Allocator s = Some a) →
  blacklist_retries (blacklist s) (backendNext sync metadata) a skipped a' out →
  (length skipped < fuel)%nat →
  ∃ s', allocateNextFamily fuel family sync metadata s = Some (out, s')
        ∧ IpamEvent s' =
            match out with
            | Ok _ => <[(metricAllocate, family) :=
                          S (default 0%nat (IpamEvent s !! (metricAllocate, family)))]>
                        (IpamEvent s)
            | Err _ => IpamEvent s
            end.
Proof.
  intros Hfam Hretries Hfuel.
  destruct (allocateNextFamily_loop_counts family sync metadata _ _ _ _ _
              Hretries fuel s eq_refl Hfuel) as (s' & Hrun & Hcount).
  exists s'. split; [|done].
  unfold allocateNextFamily. destruct Hfam as [[-> ->]|[-> ->]]; done.
Qed.

End Properties.

(** * Runs on the pool backend *)

Lemma Pool_NewUUID_inj : Inj (=) (=) Pool.NewUUID.
Proof.
  intros n m Heq. unfold Pool.NewUUID in Heq. cbn in Heq.
  injection Heq as Heq. by apply pretty_nat_inj.
Qed.

Lemma Pool_range_owner_perm (m : gmap string string) : Pool.range_owner m ≡ₚ map_to_list m.
Proof. done. Qed.

(** The stale watcher of the reallocated address: the timer table holds
    the second token, the watcher of the first one changes nothing. *)
Lemma expirationWatcher_guard_witness :
  expirationTimers Pool.reallocated !! net.String "10.0.0.1" ≠ Some "uuid-0"
  ∧ expirationWatcher "10.0.0.1" "uuid-0" Pool.reallocated = Pool.reallocated.
Proof.
  assert (Hne : expirationTimers Pool.reallocated !! net.String "10.0.0.1" ≠ Some "uuid-0")
    by (vm_compute; discriminate).
  split; [exact Hne|exact (expirationWatcher_guard Pool.reallocated "10.0.0.1" "uuid-0" Hne)].
Defined.

(** The scenario of the specification: [10.0.0.5] is blacklisted and
    comes first, [10.0.0.9] is returned. *)
Lemma allocateNextFamily_retries_witness :
  ∃ s', allocateNextFamily 2 IPv4 true Pool.pod_a Pool.blacklist_scenario
          = Some (Ok (mkAllocationResult "10.0.0.9" ""), s')
        ∧ owner s' !! "10.0.0.9" = Some "pod-a"
        ∧ owner s' !! "10.0.0.5" = Some "pod-a (blacklisted)"
        ∧ backendCalls s' = replicate 2 (CallAllocateNext IPv4 true Pool.pod_a).
Proof.
  destruct (allocateNextFamily_retries 2 IPv4 true Pool.pod_a Pool.blacklist_scenario
              (Pool.mk ["10.0.0.5"; "10.0.0.9"] [] false)
              [mkAllocationResult "10.0.0.5" ""]
              (Pool.mk [] ["10.0.0.9"; "10.0.0.5"] false)
              (Ok (mkAllocationResult "10.0.0.9" "")))
    as (s' & Hrun & Hcalls & _ & Hgood & Hbad).
  - left. split; reflexivity.
  - eapply retries_skip; [reflexivity|reflexivity|].
    apply retries_done; [reflexivity|]. intros r [= <-]. reflexivity.
  - cbn. lia.
  - exists s'. split; [exact Hrun|]. split; [exact (Hgood _ eq_refl)|].
    split; [|exact Hcalls].
    apply (Hbad (mkAllocationResult "10.0.0.5" "")).
    + apply list_elem_of_here.
    + intros r' [= <-]. cbn. discriminate.
Defined.

(** A blacklisted address on a coordinator without any allocator: the
    blacklist error, not the family-disabled one. *)
Lemma allocateIP_blacklisted_witness :
  blacklist (Pool.ipam None None ["10.0.0.5"]) "10.0.0.5" = true
  ∧ allocateIP "10.0.0.5" true Pool.pod_a (Pool.ipam None None ["10.0.0.5"])
    = (Some (mkError "IP 10.0.0.5 is blacklisted, owned by pod-a"),
       Pool.ipam None None ["10.0.0.5"]).
Proof.
  assert (Hbl : blacklist (Pool.ipam None None ["10.0.0.5"]) "10.0.0.5" = true)
    by reflexivity.
  split; [exact Hbl|].
  exact (proj1 (allocateIP_blacklisted (Pool.ipam None None ["10.0.0.5"]) "10.0.0.5"
                  true Pool.pod_a Hbl)).
Defined.

(** Release by owner when the second release fails: the first address
    leaves the ledger and the error is the one of the second release. *)
Lemma ReleaseIPString_spec_witness :
  (∀ m, Pool.range_owner m ≡ₚ map_to_list m)
  ∧ ReleaseIPString Pool.range_owner "pod-a" Pool.two_owned
    = (last_failure (release_all ["10.0.0.1"; "10.0.0.2"] Pool.two_owned).1,
       (release_all ["10.0.0.1"; "10.0.0.2"] Pool.two_owned).2)
  ∧ last_failure (release_all ["10.0.0.1"; "10.0.0.2"] Pool.two_owned).1
    = Some (mkError "IP is not allocated").
Proof.
  split; [exact Pool_range_owner_perm|]. split; [|reflexivity].
  pose proof (ReleaseIPString_spec Pool.range_owner "pod-a" Pool.two_owned
                Pool_range_owner_perm) as Hspec.
  change (net.ParseIP "pod-a") with (@None string) in Hspec. cbn zeta in Hspec.
  destruct Hspec as (_ & _ & _ & Hrun & _).
  apply Hrun. vm_compute. discriminate.
Defined.

(** A timer for an address that was never allocated, on a coordinator
    without allocators and with an empty ledger. *)
Lemma StartExpirationTimer_unallocated_witness :
  Inj (=) (=) Pool.NewUUID
  ∧ expirationTimers (Pool.ipam None None []) !! net.String "10.0.0.7" = None
  ∧ owner (Pool.ipam None None []) !! net.String "10.0.0.7" = None
  ∧ (StartExpirationTimer Pool.NewUUID "10.0.0.7" 5 (Pool.ipam None None [])).1
    = ("uuid-0", None).
Proof.
  assert (Hnone : expirationTimers (Pool.ipam None None []) !! net.String "10.0.0.7" = None)
    by reflexivity.
  split; [exact Pool_NewUUID_inj|]. split; [exact Hnone|]. split; [reflexivity|].
  rewrite (proj1 (StartExpirationTimer_unallocated Pool.NewUUID (Pool.ipam None None [])
                    "10.0.0.7" 5 Pool_NewUUID_inj Hnone)).
  reflexivity.
Defined.

(** C2 as stated fails when the backend cannot release: the IPv6
    allocation succeeds, the IPv4 allocation fails, [AllocateNext] returns the
    IPv4 error, and the IPv6 address is still in the ledger and still in use
    at the backend. *)
Lemma AllocateNext_rollback_counterexample :
  ¬ (∀ r6 s1 e s2 s',
       AllocateNextFamily 1 IPv6 Pool.pod_a (Pool.drained_v4 true) = Some (Ok r6, s1) →
       AllocateNextFamily 1 IPv4 Pool.pod_a s1 = Some (Err e, s2) →
       AllocateNext 1 "" Pool.pod_a (Pool.drained_v4 true)
         = Some ((None, Some r6, Some e), s') →
       owner s' !! net.String (IP_ r6) = None
       ∧ (∀ a, IPv6Allocator s' = Some a → IP_ r6 ∉ Pool.inUse a)).
Proof.
  intros Hclaim.
  edestruct (Hclaim (mkAllocationResult "f00d::1" "")) as [Hledger _];
    [reflexivity|reflexivity|reflexivity|].
  vm_compute in Hledger. discriminate.
Qed.

(** The rollback when the backend does release. *)
Lemma AllocateNext_dual_stack_witness :
  ∃ s', AllocateNext 1 "" Pool.pod_a (Pool.drained_v4 false)
          = Some ((None, Some (mkAllocationResult "f00d::1" ""),
                   Some (mkError "No more IPs available")), s')
        ∧ owner s' !! "f00d::1" = None
        ∧ expirationTimers s' !! "f00d::1" = None.
Proof.
  destruct (AllocateNextFamily 1 IPv6 Pool.pod_a (Pool.drained_v4 false))
    as [[r6 s1]|] eqn:H6; [|vm_compute in H6; discriminate].
  destruct (AllocateNextFamily 1 IPv4 Pool.pod_a s1) as [[r4 s2]|] eqn:H4;
    [|vm_compute in H6; injection H6 as <- <-; vm_compute in H4; discriminate].
  assert (Hr6 : r6 = Ok (mkAllocationResult "f00d::1" ""))
    by (vm_compute in H6; congruence).
  assert (Hr4 : r4 = Err (mkError "No more IPs available")).
  { vm_compute in H6. injection H6 as <- <-. vm_compute in H4. congruence. }
  subst r6 r4.
  assert (Hcfg : IPv4Allocator (Pool.drained_v4 false) ≠ None) by discriminate.
  destruct (proj2 (AllocateNext_dual_stack 1 "" Pool.pod_a (Pool.drained_v4 false))
              _ _ _ _ eq_refl H6 Hcfg H4) as [Hrun Hgone].
  eexists. split; [exact Hrun|]. apply Hgone.
  vm_compute in H6. injection H6 as <-. vm_compute in H4. injection H4 as <-.
  reflexivity.
Defined.

(** C8 as stated fails when the backend cannot release: the timer of the
    IPv4 result cannot be started, the timer error is returned, and the
    address just allocated is still in the ledger. *)
Lemma AllocateNextWithExpiration_rollback_counterexample :
  ¬ (∀ r4 r6 e s',
       AllocateNextWithExpiration Pool.NewUUID 1 "ipv4" 5 Pool.pod_a (Pool.timer_ahead true)
         = Some ((r4, r6, Some e), s') →
       ∀ x, r4 = Some x → owner s' !! net.String (IP_ x) = None).
Proof.
  intros Hclaim.
  destruct (AllocateNextWithExpiration Pool.NewUUID 1 "ipv4" 5 Pool.pod_a
              (Pool.timer_ahead true)) as [[[[r4 r6] [e|]] s']|] eqn:Hrun;
    vm_compute in Hrun; try discriminate.
  injection Hrun as <- <- <- <-.
  specialize (Hclaim _ _ _ _ eq_refl _ eq_refl).
  vm_compute in Hclaim. discriminate.
Qed.

(** The rollback of the timer failure when the backend does release. *)
Lemma AllocateNextWithExpiration_rollback_witness :
  AllocateNext 1 "ipv4" Pool.pod_a (Pool.timer_ahead false)
    = Some ((Some (mkAllocationResult "10.0.0.1" ""), None, None), Pool.timer_ahead_allocated)
  ∧ AllocateNextWithExpiration Pool.NewUUID 1 "ipv4" 5 Pool.pod_a (Pool.timer_ahead false)
    = Some ((Some (mkAllocationResult "10.0.0.1" ""), None,
             Some (mkError "expiration timer already registered")),
            (release_all ["10.0.0.1"] Pool.timer_ahead_allocated).2)
  ∧ owner (release_all ["10.0.0.1"] Pool.timer_ahead_allocated).2 !! "10.0.0.1" = None.
Proof.
  assert (Hrun : AllocateNext 1 "ipv4" Pool.pod_a (Pool.timer_ahead false)
                 = Some ((Some (mkAllocationResult "10.0.0.1" ""), None, None),
                         Pool.timer_ahead_allocated)) by reflexivity.
  destruct (AllocateNextWithExpiration_rollback Pool.NewUUID 1 "ipv4" 5 Pool.pod_a
              (Pool.timer_ahead false) _ _ _ Hrun) as (_ & Htimer & Hgone).
  split; [exact Hrun|]. split.
  - apply (proj1 (Htimer ltac:(discriminate)) (mkAllocationResult "10.0.0.1" "") eq_refl).
    vm_compute. eauto.
  - apply (Hgone Pool.timer_ahead_allocated 0%nat "10.0.0.1"); reflexivity.
Defined.

(** IPv4 requested on a coordinator that has only an IPv6 pool. *)
Lemma AllocateNext_skips_witness :
  IPv4Allocator (Pool.ipam None (Some (Pool.mk ["f00d::1"] [] false)) []) = None
  ∧ AllocateNext 1 "ipv4" Pool.pod_a (Pool.ipam None (Some (Pool.mk ["f00d::1"] [] false)) [])
    = Some ((None, None, None), Pool.ipam None (Some (Pool.mk ["f00d::1"] [] false)) [])
  ∧ AllocateNext 1 "" Pool.pod_a (Pool.ipam None (Some (Pool.mk ["f00d::1"] [] false)) [])
    = AllocateNext 1 "ipv6" Pool.pod_a (Pool.ipam None (Some (Pool.mk ["f00d::1"] [] false)) []).
Proof.
  assert (Hnone : IPv4Allocator (Pool.ipam None (Some (Pool.mk ["f00d::1"] [] false)) [])
                  = None) by reflexivity.
  destruct (AllocateNext_skips 1 "ipv4" Pool.pod_a
              (Pool.ipam None (Some (Pool.mk ["f00d::1"] [] false)) []))
    as (_ & _ & _ & Hskip4).
  destruct (Hskip4 Hnone) as (Hone & Hboth & _).
  split; [exact Hnone|]. split; [exact Hone|exact Hboth].
Defined.

(** ** Runs for the further properties *)

Lemma Pool_reallocated_reachable : rtc (step Pool.NewUUID) Pool.single Pool.reallocated.
Proof.
  unfold Pool.reallocated. cbv zeta. unfold AllocateIP.
  eapply rtc_r; [|apply step_StartExpirationTimer].
  eapply rtc_r; [|apply step_allocateIP].
  eapply rtc_r; [|apply step_ReleaseIP].
  eapply rtc_r; [|apply step_StartExpirationTimer].
  apply rtc_once. apply step_allocateIP.
Qed.

Lemma Pool_single_no_timers : no_timers Pool.single.
Proof. by split. Qed.

Lemma Pool_keys_canonical (m : gmap string string) (o : string) :
  ∀ (k ip : string), m !! k = Some o → net.ParseIP k = Some ip → net.String ip = k.
Proof.
  intros k ip _. cbn. destruct (Pool.address_chars k && negb (String.eqb k "")); [|done].
  by intros [= ->].
Qed.

Lemma reachable_timers_consistent_witness :
  Inj (=) (=) Pool.NewUUID
  ∧ no_timers Pool.single
  ∧ rtc (step Pool.NewUUID) Pool.single Pool.reallocated
  ∧ NoDup (watcher_tokens Pool.reallocated).
Proof.
  split; [exact Pool_NewUUID_inj|]. split; [exact Pool_single_no_timers|].
  split; [exact Pool_reallocated_reachable|].
  exact (proj2 (proj2 (reachable_timers_consistent Pool.NewUUID Pool.single Pool.reallocated
                         Pool_NewUUID_inj Pool_single_no_timers
                         Pool_reallocated_reachable))).
Defined.

Lemma reachable_token_fresh_witness :
  expirationTimers Pool.reallocated !! net.String "10.0.0.2" = None
  ∧ ∃ u s', StartExpirationTimer Pool.NewUUID "10.0.0.2" 5 Pool.reallocated = (u, None, s')
            ∧ (∀ k, expirationTimers Pool.reallocated !! k ≠ Some u)
            ∧ u ∉ watcher_tokens Pool.reallocated.
Proof.
  assert (Hfree : expirationTimers Pool.reallocated !! net.String "10.0.0.2" = None)
    by reflexivity.
  split; [exact Hfree|].
  exact (reachable_token_fresh Pool.NewUUID Pool.single Pool.reallocated "10.0.0.2" 5
           Pool_NewUUID_inj Pool_single_no_timers Pool_reallocated_reachable Hfree).
Defined.

Lemma reachable_one_live_watcher_witness :
  goroutines Pool.reallocated !! 0%nat = Some ("10.0.0.1", "uuid-0", 5%Z)
  ∧ goroutines Pool.reallocated !! 1%nat = Some ("10.0.0.1", "uuid-1", 5%Z)
  ∧ (expirationWatcher "10.0.0.1" "uuid-0" Pool.reallocated = Pool.reallocated
     ∨ expirationWatcher "10.0.0.1" "uuid-1" Pool.reallocated = Pool.reallocated).
Proof.
  assert (H0 : goroutines Pool.reallocated !! 0%nat = Some ("10.0.0.1", "uuid-0", 5%Z))
    by reflexivity.
  assert (H1 : goroutines Pool.reallocated !! 1%nat = Some ("10.0.0.1", "uuid-1", 5%Z))
    by reflexivity.
  split; [exact H0|]. split; [exact H1|].
  apply (reachable_one_live_watcher Pool.NewUUID Pool.single Pool.reallocated 0 1
           "10.0.0.1" "10.0.0.1" "uuid-0" "uuid-1" 5 5
           Pool_NewUUID_inj Pool_single_no_timers Pool_reallocated_reachable H0 H1);
    [discriminate|reflexivity].
Defined.

Lemma step_ledger_needs_backend_witness :
  step Pool.NewUUID Pool.single Pool.race_allocated
  ∧ (owner Pool.race_allocated = owner Pool.single
     ∨ ∃ c cs, backendCalls Pool.race_allocated = (backendCalls Pool.single ++ c :: cs)%list).
Proof.
  assert (Hstep : step Pool.NewUUID Pool.single Pool.race_allocated)
    by apply step_allocateIP.
  split; [exact Hstep|].
  exact (step_ledger_needs_backend Pool.NewUUID Pool.single Pool.race_allocated Hstep).
Defined.

Lemma compound_operations_are_steps_witness :
  rtc (step Pool.NewUUID) Pool.two_owned
      (ReleaseIPString Pool.range_owner "pod-a" Pool.two_owned).2.
Proof.
  exact (proj2 (proj2 (compound_operations_are_steps Pool.NewUUID Pool.range_owner
                         1 "" 5 Pool.pod_a "pod-a" Pool.two_owned))).
Defined.

Lemma allocations_avoid_blacklist_witness :
  allocateNextFamily 2 IPv4 true Pool.pod_a Pool.blacklist_scenario
    = Some (Ok (mkAllocationResult "10.0.0.9" ""),
            match allocateNextFamily 2 IPv4 true Pool.pod_a Pool.blacklist_scenario with
            | Some (_, s) => s
            | None => Pool.blacklist_scenario
            end)
  ∧ blacklist Pool.blacklist_scenario "10.0.0.9" = false.
Proof.
  assert (Hrun : allocateNextFamily 2 IPv4 true Pool.pod_a Pool.blacklist_scenario
    = Some (Ok (mkAllocationResult "10.0.0.9" ""),
            match allocateNextFamily 2 IPv4 true Pool.pod_a Pool.blacklist_scenario with
            | Some (_, s) => s
            | None => Pool.blacklist_scenario
            end)) by reflexivity.
  split; [exact Hrun|].
  exact (proj1 (proj1 (proj2 (allocations_avoid_blacklist 2 Pool.blacklist_scenario))
                  IPv4 true Pool.pod_a _ _ Hrun)).
Defined.

Lemma Dump_annotates_witness :
  IPv4Allocator Pool.two_owned = Some (Pool.mk [] ["10.0.0.1"] false)
  ∧ ∃ m', (Dump Pool.two_owned).1.1 = Some m'
          ∧ m' !! "10.0.0.1" = Some "pod-a".
Proof.
  split; [reflexivity|].
  assert (Hd : Allocator.Dump (Pool.mk [] ["10.0.0.1"] false)
               = ((Pool.dump (Pool.mk [] ["10.0.0.1"] false)).1,
                  (Pool.dump (Pool.mk [] ["10.0.0.1"] false)).2)) by reflexivity.
  destruct (proj1 (Dump_annotates Pool.two_owned) (Pool.mk [] ["10.0.0.1"] false)
              _ _ eq_refl Hd) as (m' & Hm & _ & Hlook).
  exists m'. split; [exact Hm|]. apply (Hlook "10.0.0.1"). vm_compute. reflexivity.
Defined.

Lemma allocateIP_atomic_witness :
  blacklist Pool.single "10.0.0.1" = false
  ∧ ∃ s', allocateIP "10.0.0.1" true Pool.pod_a Pool.single = (None, s')
          ∧ owner s' = <["10.0.0.1" := "pod-a"]> (owner Pool.single).
Proof.
  assert (Hbl : blacklist Pool.single "10.0.0.1" = false) by reflexivity.
  split; [exact Hbl|].
  destruct (allocateIP_atomic Pool.single "10.0.0.1" true Pool.pod_a Hbl)
    as (s' & Hrun & Howner & _).
  exists s'. split; [exact Hrun|exact Howner].
Defined.

Lemma allocate_release_round_trip_witness :
  allocateIP "10.0.0.1" true Pool.pod_a Pool.single = (None, Pool.race_allocated)
  ∧ ReleaseIP "10.0.0.1" Pool.race_allocated
    = (None, (ReleaseIP "10.0.0.1" Pool.race_allocated).2)
  ∧ owner (ReleaseIP "10.0.0.1" Pool.race_allocated).2 = owner Pool.single.
Proof.
  assert (H1 : allocateIP "10.0.0.1" true Pool.pod_a Pool.single
               = (None, Pool.race_allocated)) by reflexivity.
  assert (H2 : ReleaseIP "10.0.0.1" Pool.race_allocated
               = (None, (ReleaseIP "10.0.0.1" Pool.race_allocated).2)) by reflexivity.
  split; [exact H1|]. split; [exact H2|].
  apply (allocate_release_round_trip Pool.single "10.0.0.1" true Pool.pod_a _ _ H1 H2).
  reflexivity.
Defined.

Lemma start_stop_round_trip_witness :
  expirationTimers Pool.race_allocated !! net.String "10.0.0.1" = None
  ∧ ∃ u s1 s2,
      StartExpirationTimer Pool.NewUUID "10.0.0.1" 5 Pool.race_allocated = (u, None, s1)
      ∧ StopExpirationTimer "10.0.0.1" u s1 = (None, s2)
      ∧ owner s2 = owner Pool.race_allocated
      ∧ expirationWatcher "10.0.0.1" u s2 = s2.
Proof.
  assert (Hfree : expirationTimers Pool.race_allocated !! net.String "10.0.0.1" = None)
    by reflexivity.
  split; [exact Hfree|].
  destruct (start_stop_round_trip Pool.NewUUID Pool.race_allocated "10.0.0.1" 5 Hfree)
    as (u & s1 & s2 & Hstart & Hstop & _ & Howner & _ & _ & Hwatch).
  exists u, s1, s2. split; [exact Hstart|]. split; [exact Hstop|].
  split; [exact Howner|exact Hwatch].
Defined.

Lemma expiry_reclaims_witness :
  expirationTimers Pool.race_allocated !! net.String "10.0.0.1" = None
  ∧ owner (expirationWatcher "10.0.0.1" "uuid-0" Pool.race_timed) !! "10.0.0.1" = None.
Proof.
  assert (Hfree : expirationTimers Pool.race_allocated !! net.String "10.0.0.1" = None)
    by reflexivity.
  split; [exact Hfree|].
  destruct (expiry_reclaims Pool.NewUUID Pool.race_allocated "10.0.0.1" 5 Hfree)
    as (u & s1 & Hstart & _ & Hgone).
  change (StartExpirationTimer Pool.NewUUID "10.0.0.1" 5 Pool.race_allocated)
    with ("uuid-0", @None error, Pool.race_timed) in Hstart.
  injection Hstart as <- <-.
  apply Hgone. reflexivity.
Defined.

Lemma timer_race_witness :
  StartExpirationTimer Pool.NewUUID "10.0.0.1" 5 Pool.race_allocated
    = ("uuid-0", None, Pool.race_timed)
  ∧ ReleaseIP "10.0.0.1" Pool.race_timed = (None, Pool.race_released)
  ∧ allocateIP "10.0.0.1" true {| Owner := "pod-b" |} Pool.race_released
    = (None, Pool.race_allocated_again)
  ∧ StartExpirationTimer Pool.NewUUID "10.0.0.1" 5 Pool.race_allocated_again
    = ("uuid-1", None, Pool.reallocated)
  ∧ expirationWatcher "10.0.0.1" "uuid-0" Pool.reallocated = Pool.reallocated
  ∧ owner Pool.reallocated !! "10.0.0.1" = Some "pod-b".
Proof.
  assert (H1 : StartExpirationTimer Pool.NewUUID "10.0.0.1" 5 Pool.race_allocated
               = ("uuid-0", None, Pool.race_timed)) by reflexivity.
  assert (H2 : ReleaseIP "10.0.0.1" Pool.race_timed = (None, Pool.race_released))
    by reflexivity.
  assert (H3 : allocateIP "10.0.0.1" true {| Owner := "pod-b" |} Pool.race_released
               = (None, Pool.race_allocated_again)) by reflexivity.
  assert (H4 : StartExpirationTimer Pool.NewUUID "10.0.0.1" 5 Pool.race_allocated_again
               = ("uuid-1", None, Pool.reallocated)) by (vm_compute; reflexivity).
  split; [exact H1|]. split; [exact H2|]. split; [exact H3|]. split; [exact H4|].
  exact (timer_race Pool.NewUUID "10.0.0.1" 5 5 true {| Owner := "pod-b" |}
           "uuid-0" "uuid-1" _ _ _ _ _ Pool_NewUUID_inj H1 H2 H3 H4).
Defined.

Lemma ReleaseIPString_releases_all_witness :
  net.ParseIP "pod-a" = @None string
  ∧ (ReleaseIPString Pool.range_owner "pod-a" Pool.two_allocated).1 = None
  ∧ owner (ReleaseIPString Pool.range_owner "pod-a" Pool.two_allocated).2 !! "10.0.0.2"
    = None.
Proof.
  assert (Hparse : net.ParseIP "pod-a" = @None string) by reflexivity.
  assert (Hok : (ReleaseIPString Pool.range_owner "pod-a" Pool.two_allocated).1 = None)
    by reflexivity.
  split; [exact Hparse|]. split; [exact Hok|].
  apply (ReleaseIPString_releases_all Pool.range_owner "pod-a" Pool.two_allocated
           Pool_range_owner_perm Hparse (Pool_keys_canonical _ _) Hok "10.0.0.2" "10.0.0.2");
    reflexivity.
Defined.


Lemma allocateNextFamily_counts_once_witness :
  ∃ s', allocateNextFamily 2 IPv4 true Pool.pod_a Pool.blacklist_scenario
          = Some (Ok (mkAllocationResult "10.0.0.9" ""), s')
        ∧ IpamEvent s' !! (metricAllocate, IPv4) = Some 1%nat.
Proof.
  destruct (allocateNextFamily_counts_once 2 IPv4 true Pool.pod_a Pool.blacklist_scenario
              (Pool.mk ["10.0.0.5"; "10.0.0.9"] [] false)
              [mkAllocationResult "10.0.0.5" ""]
              (Pool.mk [] ["10.0.0.9"; "10.0.0.5"] false)
              (Ok (mkAllocationResult "10.0.0.9" "")))
    as (s' & Hrun & Hcount).
  - left. split; reflexivity.
  - eapply retries_skip; [reflexivity|reflexivity|].
    apply retries_done; [reflexivity|]. intros r [= <-]. reflexivity.
  - cbn. lia.
  - exists s'. split; [exact Hrun|]. rewrite Hcount. reflexivity.
Defined.
